(** * MCP deployment library: a shallow embedding of [pkg/deployer]

    The development follows [pkg/deployer/deployer.go] (the data types),
    [pkg/deployer/simple_deployer.go] (the three operations of
    [SimpleDeployer]) and the port prompt of [cmd/wizard/main.go].

    Modelling decisions, fixed once for the whole file:
    - a Go [map[string]string] is a reference: [GoMap] is [nil] or a location
      of a heap of string maps, so that sharing between the caller's spec and
      the manifests is visible;
    - the Kubernetes clientset is an external collaborator: a record of
      primitives over an arbitrary cluster state; every invocation is
      appended to a call log;
    - [int32] values are [Z]; slices are lists ([nil] and the empty slice are
      not distinguished); a Go pointer to a struct that is only read is an
      [option];
    - the [context.Context] argument and the empty [CreateOptions],
      [GetOptions] and [DeleteOptions] are constant in the source and are
      left out. *)

From stdpp Require Import base gmap list strings pretty.
From Stdlib Require Import ZArith Ascii.

Local Open Scope Z_scope.

(** ** Kubernetes API types (the fields the package reads or writes) *)

Definition loc := positive.

(** [map[string]string]: [None] is the nil map. *)
Definition GoMap := option loc.

Module ObjectMeta.
Record t := {
    Name : string;
    Namespace : string;
    Labels : GoMap;
    Annotations : GoMap }.
Definition zero : t :=
    {| Name := ""; Namespace := ""; Labels := None; Annotations := None |}.
End ObjectMeta.

Module LabelSelector.
Record t := { MatchLabels : GoMap }.
End LabelSelector.

Module ListOptions.
Record t := { LabelSelector : string }.
End ListOptions.

Module SecretVolumeSource.
Record t := { SecretName : string }.
End SecretVolumeSource.

Module VolumeSource.
Record t := { Secret : option SecretVolumeSource.t }.
End VolumeSource.

Module Volume.
Record t := { Name : string; VolumeSource : VolumeSource.t }.
End Volume.

Module VolumeMount.
Record t := { Name : string; MountPath : string; ReadOnly : bool }.
End VolumeMount.

(** [corev1.Protocol] and [corev1.ServiceType] are string types. *)
Definition ProtocolTCP : string := "TCP".
Definition ServiceTypeClusterIP : string := "ClusterIP".

Module ContainerPort.
Record t := { Name : string; ContainerPort : Z; Protocol : string }.
End ContainerPort.

Module SecretKeySelector.
Record t := { Name : string; Key : string }.
End SecretKeySelector.

Module EnvVarSource.
Record t := { SecretKeyRef : option SecretKeySelector.t }.
End EnvVarSource.

Module EnvVar.
Record t := {
    Name : string;
    Value : string;
    ValueFrom : option EnvVarSource.t }.
End EnvVar.

(** [corev1.ResourceList]: a map from resource name to quantity, held by
    value (the package never writes one); [None] is the nil map.  A quantity
    is kept in its textual form. *)
Definition ResourceList := option (gmap string string).

Module ResourceRequirements.
Record t := { Limits : ResourceList; Requests : ResourceList }.
(** The composite literal [corev1.ResourceRequirements{}]. *)
Definition zero : t := {| Limits := None; Requests := None |}.
End ResourceRequirements.

Module Container.
Record t := {
    Name : string;
    Image : string;
    Ports : list ContainerPort.t;
    Env : list EnvVar.t;
    Args : list string;
    VolumeMounts : list VolumeMount.t;
    Resources : ResourceRequirements.t }.
End Container.

Module PodSpec.
Record t := {
    ServiceAccountName : string;
    Containers : list Container.t;
    Volumes : list Volume.t }.
End PodSpec.

Module PodTemplateSpec.
Record t := { ObjectMeta : ObjectMeta.t; Spec : PodSpec.t }.
End PodTemplateSpec.

Module DeploymentCondition.
(** [Type] is a reserved word; the Go field is [Type]. *)
Record t := { Type_ : string; Status : string; Message : string }.
End DeploymentCondition.

Module DeploymentStatus.
Record t := {
    ReadyReplicas : Z;
    AvailableReplicas : Z;
    Conditions : list DeploymentCondition.t }.
Definition zero : t :=
    {| ReadyReplicas := 0; AvailableReplicas := 0; Conditions := [] |}.
End DeploymentStatus.

Module DeploymentSpec.
Record t := {
    Replicas : option Z;
    Selector : option LabelSelector.t;
    Template : PodTemplateSpec.t }.
End DeploymentSpec.

Module Deployment.
Record t := {
    ObjectMeta : ObjectMeta.t;
    Spec : DeploymentSpec.t;
    Status : DeploymentStatus.t }.
End Deployment.

(** [intstr.IntOrString]. *)
Inductive IntOrString :=
| IntVal (i : Z)
| StrVal (s : string).

(** [intstr.FromInt(val int)] stores [int32(val)]. *)
Definition int32_wrap (z : Z) : Z :=
  (z + 2 ^ 31) mod 2 ^ 32 - 2 ^ 31.

Definition FromInt (val : Z) : IntOrString := IntVal (int32_wrap val).

Module ServicePort.
Record t := {
    Name : string;
    Port : Z;
    TargetPort : IntOrString;
    Protocol : string }.
End ServicePort.

Module ServiceSpec.
Record t := {
    Selector : GoMap;
    Ports : list ServicePort.t;
    Type_ : string }.
End ServiceSpec.

Module Service.
Record t := { ObjectMeta : ObjectMeta.t; Spec : ServiceSpec.t }.
End Service.

(** ** The package's own types, [deployer.go] *)

Module SecretMount.
Record t := { SecretName : string; MountPath : string }.
End SecretMount.

Module MCPServerSpec.
Record t := {
    Name : string;
    Namespace : string;
    Image : string;
    Port : Z;
    EnvVars : list EnvVar.t;
    Args : list string;
    SecretMounts : list SecretMount.t;
    ServiceAccount : string;
    Labels : GoMap;
    Annotations : GoMap;
    Resources : option ResourceRequirements.t }.
End MCPServerSpec.

Module MCPServerStatus.
Record t := {
    Name : string;
    Namespace : string;
    Image : string;
    Available : bool;
    Endpoint : string;
    Labels : GoMap;
    Annotations : GoMap;
    Conditions : list string }.

(** Field assignments [status.Image = ...], [status.Endpoint = ...] and
    [status.Conditions = append(status.Conditions, ...)]. *)
Definition set_Image (status : t) (image : string) : t :=
  {| Name := Name status; Namespace := Namespace status; Image := image;
     Available := Available status; Endpoint := Endpoint status;
     Labels := Labels status; Annotations := Annotations status;
     Conditions := Conditions status |}.

Definition set_Endpoint (status : t) (endpoint : string) : t :=
  {| Name := Name status; Namespace := Namespace status; Image := Image status;
     Available := Available status; Endpoint := endpoint;
     Labels := Labels status; Annotations := Annotations status;
     Conditions := Conditions status |}.

Definition append_Conditions (status : t) (line : string) : t :=
  {| Name := Name status; Namespace := Namespace status; Image := Image status;
     Available := Available status; Endpoint := Endpoint status;
     Labels := Labels status; Annotations := Annotations status;
     Conditions := Conditions status ++ [line] |}.
End MCPServerStatus.

(** ** Errors *)

(** A Go [error] value: one returned by the cluster API, or one built by
    [fmt.Errorf] with a [%w] verb around another error. *)
Inductive error :=
| ApiError (msg : string)
| Errorf_w (prefix : string) (err : error).

Fixpoint Error (e : error) : string :=
  match e with
  | ApiError msg => msg
  | Errorf_w prefix err => prefix +:+ Error err
  end.

(** ** The heap of string maps *)

Abbreviation Heap := (gmap loc (gmap string string)).

(** The entries a map value denotes; ranging over or reading the nil map
    sees no entry. *)
Definition entries (h : Heap) (m : GoMap) : gmap string string :=
  match m with
  | Some l => default ∅ (h !! l)
  | None => ∅
  end.

(** ** The cluster client *)

(** One constructor per primitive of the clientset that the package
    invokes, with the arguments of the invocation. *)
Inductive Call :=
| DeploymentsCreate (namespace : string) (deployment : Deployment.t)
| DeploymentsList (namespace : string) (opts : ListOptions.t)
| DeploymentsDelete (namespace name : string)
| ServicesCreate (namespace : string) (service : Service.t)
| ServicesGet (namespace name : string)
| ServicesDelete (namespace name : string).

Definition is_ServicesDelete (c : Call) : bool :=
  match c with ServicesDelete _ _ => true | _ => false end.

(** The behaviour of the clientset over a cluster state [K].  Create
    primitives read the object they are given (and so the heap) and return
    an error or nil; the object they also return is discarded by the
    package.  List and Get hand back freshly decoded objects and may
    allocate their maps. *)
Record Clientset (K : Type) := {
  deployments_create :
    string → Deployment.t → Heap → K → option error * K;
  deployments_list :
    string → ListOptions.t → Heap → K → (list Deployment.t + error) * Heap * K;
  deployments_delete :
    string → string → K → option error * K;
  services_create :
    string → Service.t → Heap → K → option error * K;
  services_get :
    string → string → Heap → K → (Service.t + error) * Heap * K;
  services_delete :
    string → string → K → option error * K }.

Arguments deployments_create {K}.
Arguments deployments_list {K}.
Arguments deployments_delete {K}.
Arguments services_create {K}.
Arguments services_get {K}.
Arguments services_delete {K}.

(** ** Program states and the monad of the embedding *)

Record World (K : Type) := {
  heap : Heap;
  kube : K;
  calls : list Call }.

Arguments heap {K}.
Arguments kube {K}.
Arguments calls {K}.

Definition Go (K A : Type) : Type := World K → A * World K.

Definition ret {K A} (a : A) : Go K A := λ w, (a, w).

Definition bind {K A B} (c : Go K A) (k : A → Go K B) : Go K B :=
  λ w, let '(a, w') := c w in k a w'.

Declare Scope go_scope.
Delimit Scope go_scope with go.
Notation "x <- c ;; k" := (bind c (λ x, k))
  (at level 100, c at next level, right associativity) : go_scope.
Notation "c ;;; k" := (bind c (λ _, k))
  (at level 100, right associativity) : go_scope.

(** [MCPServerLabel], the label that identifies MCP server deployments. *)
Definition MCPServerLabel : string := "mcp.opendatahub.io/mcp-server".

Section SimpleDeployer.

(** [SimpleDeployer] holds one field, the clientset; the receiver [d] of
    every method is this section variable. *)
Context {K : Type} (clientset : Clientset K).

Local Open Scope go_scope.

(** *** Map statements *)

(** [make(map[string]string)]: a location that is not in use. *)
Definition make_map : Go K loc := λ w,
  let l := fresh (dom (heap w)) in
  (l, {| heap := <[l := ∅]> (heap w); kube := kube w; calls := calls w |}).

(** [m[k] = v] for a non-nil [m]. *)
Definition map_assign (l : loc) (k v : string) : Go K unit := λ w,
  (tt, {| heap := alter (<[k := v]>) l (heap w);
          kube := kube w; calls := calls w |}).

(** The entries a [range] clause visits.  Go leaves the order unspecified;
    [range_order_irrelevant] shows the order is immaterial here. *)
Definition map_range (m : GoMap) : Go K (list (string * string)) := λ w,
  (map_to_list (entries (heap w) m), w).

Fixpoint for_each {A} (xs : list A) (body : A → Go K unit) : Go K unit :=
  match xs with
  | [] => ret tt
  | x :: rest => body x ;;; for_each rest body
  end.

(** *** Invocations of the clientset, each recorded in the call log *)

Definition log (c : Call) (h : Heap) (k : K) (w : World K) : World K :=
  {| heap := h; kube := k; calls := calls w ++ [c] |}.

Definition Deployments_Create (namespace : string) (deployment : Deployment.t)
  : Go K (option error) := λ w,
  let '(err, k) := deployments_create clientset namespace deployment (heap w) (kube w) in
  (err, log (DeploymentsCreate namespace deployment) (heap w) k w).

Definition Deployments_List (namespace : string) (opts : ListOptions.t)
  : Go K (list Deployment.t + error) := λ w,
  let '(r, h, k) := deployments_list clientset namespace opts (heap w) (kube w) in
  (r, log (DeploymentsList namespace opts) h k w).

Definition Deployments_Delete (namespace name : string)
  : Go K (option error) := λ w,
  let '(err, k) := deployments_delete clientset namespace name (kube w) in
  (err, log (DeploymentsDelete namespace name) (heap w) k w).

Definition Services_Create (namespace : string) (service : Service.t)
  : Go K (option error) := λ w,
  let '(err, k) := services_create clientset namespace service (heap w) (kube w) in
  (err, log (ServicesCreate namespace service) (heap w) k w).

Definition Services_Get (namespace name : string)
  : Go K (Service.t + error) := λ w,
  let '(r, h, k) := services_get clientset namespace name (heap w) (kube w) in
  (r, log (ServicesGet namespace name) h k w).

Definition Services_Delete (namespace name : string)
  : Go K (option error) := λ w,
  let '(err, k) := services_delete clientset namespace name (kube w) in
  (err, log (ServicesDelete namespace name) (heap w) k w).

(** *** [simple_deployer.go] *)

(** [getResources]: the pointee when the pointer is set, the zero value
    otherwise. *)
Definition getResources (resources : option ResourceRequirements.t)
  : ResourceRequirements.t :=
  match resources with
  | Some r => r
  | None => ResourceRequirements.zero
  end.

Definition mergeLabels (userLabels : GoMap) : Go K GoMap :=
  labels <- make_map ;;
  kvs <- map_range userLabels ;;
  for_each kvs (λ kv, map_assign labels kv.1 kv.2) ;;;
  map_assign labels MCPServerLabel "true" ;;;
  ret (Some labels).

(** The loop of [createDeployment] over [spec.SecretMounts]: [i] is the
    index of the head of [mounts], the two accumulators are the slices
    [volumes] and [volumeMounts]. *)
Fixpoint secretVolumes (i : nat) (mounts : list SecretMount.t)
    (volumes : list Volume.t) (volumeMounts : list VolumeMount.t)
  : list Volume.t * list VolumeMount.t :=
  match mounts with
  | [] => (volumes, volumeMounts)
  | secretMount :: rest =>
      let volumeName := "secret-" +:+ pretty i in
      secretVolumes (S i) rest
        (volumes ++ [ {| Volume.Name := volumeName;
                         Volume.VolumeSource :=
                           {| VolumeSource.Secret :=
                                Some {| SecretVolumeSource.SecretName :=
                                          SecretMount.SecretName secretMount |} |} |} ])
        (volumeMounts ++ [ {| VolumeMount.Name := volumeName;
                              VolumeMount.MountPath := SecretMount.MountPath secretMount;
                              VolumeMount.ReadOnly := true |} ])
  end.

(** The composite literal bound to [deployment] in [createDeployment]. *)
Definition deploymentManifest (spec : MCPServerSpec.t) (labels : GoMap)
    (volumes : list Volume.t) (volumeMounts : list VolumeMount.t)
  : Deployment.t :=
  let replicas := 1 in
  {| Deployment.ObjectMeta :=
       {| ObjectMeta.Name := MCPServerSpec.Name spec;
          ObjectMeta.Namespace := MCPServerSpec.Namespace spec;
          ObjectMeta.Labels := labels;
          ObjectMeta.Annotations := MCPServerSpec.Annotations spec |};
     Deployment.Spec :=
       {| DeploymentSpec.Replicas := Some replicas;
          DeploymentSpec.Selector :=
            Some {| LabelSelector.MatchLabels := labels |};
          DeploymentSpec.Template :=
            {| PodTemplateSpec.ObjectMeta :=
                 {| ObjectMeta.Name := "";
                    ObjectMeta.Namespace := "";
                    ObjectMeta.Labels := labels;
                    ObjectMeta.Annotations := MCPServerSpec.Annotations spec |};
               PodTemplateSpec.Spec :=
                 {| PodSpec.ServiceAccountName := MCPServerSpec.ServiceAccount spec;
                    PodSpec.Containers :=
                      [ {| Container.Name := "mcp-server";
                           Container.Image := MCPServerSpec.Image spec;
                           Container.Ports :=
                             [ {| ContainerPort.Name := "mcp";
                                  ContainerPort.ContainerPort := MCPServerSpec.Port spec;
                                  ContainerPort.Protocol := ProtocolTCP |} ];
                           Container.Env := MCPServerSpec.EnvVars spec;
                           Container.Args := MCPServerSpec.Args spec;
                           Container.VolumeMounts := volumeMounts;
                           Container.Resources :=
                             getResources (MCPServerSpec.Resources spec) |} ];
                    PodSpec.Volumes := volumes |} |} |};
     Deployment.Status := DeploymentStatus.zero |}.

Definition createDeployment (spec : MCPServerSpec.t) : Go K (option error) :=
  labels <- mergeLabels (MCPServerSpec.Labels spec) ;;
  let '(volumes, volumeMounts) :=
    secretVolumes 0 (MCPServerSpec.SecretMounts spec) [] [] in
  let deployment := deploymentManifest spec labels volumes volumeMounts in
  err <- Deployments_Create (MCPServerSpec.Namespace spec) deployment ;;
  match err with
  | Some e => ret (Some (Errorf_w "failed to create deployment: " e))
  | None => ret None
  end.

(** The composite literal bound to [service] in [createService]. *)
Definition serviceManifest (spec : MCPServerSpec.t) (labels : GoMap)
  : Service.t :=
  {| Service.ObjectMeta :=
       {| ObjectMeta.Name := MCPServerSpec.Name spec;
          ObjectMeta.Namespace := MCPServerSpec.Namespace spec;
          ObjectMeta.Labels := labels;
          ObjectMeta.Annotations := MCPServerSpec.Annotations spec |};
     Service.Spec :=
       {| ServiceSpec.Selector := labels;
          ServiceSpec.Ports :=
            [ {| ServicePort.Name := "mcp";
                 ServicePort.Port := MCPServerSpec.Port spec;
                 ServicePort.TargetPort := FromInt (MCPServerSpec.Port spec);
                 ServicePort.Protocol := ProtocolTCP |} ];
          ServiceSpec.Type_ := ServiceTypeClusterIP |} |}.

Definition createService (spec : MCPServerSpec.t) : Go K (option error) :=
  labels <- mergeLabels (MCPServerSpec.Labels spec) ;;
  let service := serviceManifest spec labels in
  err <- Services_Create (MCPServerSpec.Namespace spec) service ;;
  match err with
  | Some e => ret (Some (Errorf_w "failed to create service: " e))
  | None => ret None
  end.

Definition DeployMCPServer (spec : MCPServerSpec.t) : Go K (option error) :=
  err <- createDeployment spec ;;
  match err with
  | Some e => ret (Some (Errorf_w "failed to create deployment: " e))
  | None =>
      err <- createService spec ;;
      match err with
      | Some e => ret (Some (Errorf_w "failed to create service: " e))
      | None => ret None
      end
  end.

Definition DeleteMCPServer (namespace name : string) : Go K (option error) :=
  err <- Deployments_Delete namespace name ;;
  match err with
  | Some e => ret (Some (Errorf_w "failed to delete deployment: " e))
  | None =>
      err <- Services_Delete namespace name ;;
      match err with
      | Some e => ret (Some (Errorf_w "failed to delete service: " e))
      | None => ret None
      end
  end.

(** [fmt.Sprintf("%s: %s - %s", condition.Type, condition.Status,
    condition.Message)]; the three operands are string types. *)
Definition conditionLine (condition : DeploymentCondition.t) : string :=
  DeploymentCondition.Type_ condition +:+ ": " +:+
  DeploymentCondition.Status condition +:+ " - " +:+
  DeploymentCondition.Message condition.

(** [fmt.Sprintf("%s:%d", service.Name, service.Spec.Ports[0].Port)]. *)
Definition endpointOf (service : Service.t) (port0 : ServicePort.t) : string :=
  ObjectMeta.Name (Service.ObjectMeta service) +:+ ":" +:+
  pretty (ServicePort.Port port0).

(** The body of the loop of [ListMCPServers] for one item, up to the
    [append] to [servers]. *)
Definition projectStatus (namespace : string) (deployment : Deployment.t)
  : Go K MCPServerStatus.t :=
  let status :=
    {| MCPServerStatus.Name := ObjectMeta.Name (Deployment.ObjectMeta deployment);
       MCPServerStatus.Namespace :=
         ObjectMeta.Namespace (Deployment.ObjectMeta deployment);
       MCPServerStatus.Image := "";
       MCPServerStatus.Available :=
         bool_decide
           (DeploymentStatus.AvailableReplicas (Deployment.Status deployment) > 0);
       MCPServerStatus.Endpoint := "";
       MCPServerStatus.Labels := ObjectMeta.Labels (Deployment.ObjectMeta deployment);
       MCPServerStatus.Annotations :=
         ObjectMeta.Annotations (Deployment.ObjectMeta deployment);
       MCPServerStatus.Conditions := [] |} in
  let status :=
    match PodSpec.Containers
            (PodTemplateSpec.Spec
               (DeploymentSpec.Template (Deployment.Spec deployment))) with
    | container0 :: _ =>
        MCPServerStatus.set_Image status (Container.Image container0)
    | [] => status
    end in
  status <-
    (if MCPServerStatus.Available status then
       r <- Services_Get namespace
              (ObjectMeta.Name (Deployment.ObjectMeta deployment)) ;;
       match r with
       | inl service =>
           match ServiceSpec.Ports (Service.Spec service) with
           | port0 :: _ =>
               ret (MCPServerStatus.set_Endpoint status (endpointOf service port0))
           | [] => ret status
           end
       | inr _ => ret status
       end
     else ret status) ;;
  ret (foldl (λ st condition,
                MCPServerStatus.append_Conditions st (conditionLine condition))
         status
         (DeploymentStatus.Conditions (Deployment.Status deployment))).

(** The loop over [deployments.Items]; [servers] is the slice built so
    far. *)
Fixpoint projectAll (namespace : string) (items : list Deployment.t)
    (servers : list MCPServerStatus.t) : Go K (list MCPServerStatus.t) :=
  match items with
  | [] => ret servers
  | deployment :: rest =>
      status <- projectStatus namespace deployment ;;
      projectAll namespace rest (servers ++ [status])
  end.

Definition ListMCPServers (namespace : string)
  : Go K (list MCPServerStatus.t * option error) :=
  let listOptions :=
    {| ListOptions.LabelSelector := MCPServerLabel +:+ "=true" |} in
  r <- Deployments_List namespace listOptions ;;
  match r with
  | inr err => ret ([], Some (Errorf_w "failed to list deployments: " err))
  | inl items =>
      servers <- projectAll namespace items [] ;;
      ret (servers, None)
  end.

End SimpleDeployer.

(** ** The port prompt of the wizard, [cmd/wizard/main.go] *)

Module Wizard.

Definition byte (n : N) : ascii := Ascii.ascii_of_N n.

(** The UTF-8 encodings of the runes for which [unicode.IsSpace] holds:
    the six ASCII ones, U+0085, U+00A0, U+1680, U+2000 to U+200A, U+2028,
    U+2029, U+202F, U+205F and U+3000. *)
Definition spaceRunes : list (list ascii) :=
  map (λ n, [byte n]) [9; 10; 11; 12; 13; 32]%N ++
  [ [byte 194; byte 133]; [byte 194; byte 160];
    [byte 225; byte 154; byte 128] ] ++
  map (λ n, [byte 226; byte 128; byte n])
      [128; 129; 130; 131; 132; 133; 134; 135; 136; 137; 138; 168; 169; 175]%N ++
  [ [byte 226; byte 129; byte 159]; [byte 227; byte 128; byte 128] ].

Fixpoint stripPrefix (p s : list ascii) : option (list ascii) :=
  match p, s with
  | [], _ => Some s
  | c :: p', d :: s' => if decide (c = d) then stripPrefix p' s' else None
  | _ :: _, [] => None
  end.

(** What is left of [s] after one leading rune out of [runes], if it
    starts with one. *)
Fixpoint stripRune (runes : list (list ascii)) (s : list ascii)
  : option (list ascii) :=
  match runes with
  | [] => None
  | r :: runes' =>
      match stripPrefix r s with
      | Some rest => Some rest
      | None => stripRune runes' s
      end
  end.

(** Removes leading runes of [runes]; [n] bounds the number of removals
    and is the length of the input at the call site. *)
Fixpoint trimLeft (runes : list (list ascii)) (n : nat) (s : list ascii)
  : list ascii :=
  match n with
  | O => s
  | S n' =>
      match stripRune runes s with
      | Some rest => trimLeft runes n' rest
      | None => s
      end
  end.

(** [strings.TrimSpace]. *)
Definition TrimSpace (s : string) : string :=
  let bytes := String.list_ascii_of_string s in
  let left := trimLeft spaceRunes (length bytes) bytes in
  let right :=
    trimLeft (map (@rev ascii) spaceRunes) (length left) (rev left) in
  String.string_of_list_ascii (rev right).

Definition digit (c : ascii) : option Z :=
  let n := Z.of_N (Ascii.N_of_ascii c) in
  if bool_decide (48 ≤ n ≤ 57) then Some (n - 48) else None.

Fixpoint digits (s : list ascii) (acc : Z) : option Z :=
  match s with
  | [] => Some acc
  | c :: rest =>
      match digit c with
      | Some d => digits rest (acc * 10 + d)
      | None => None
      end
  end.

(** [strconv.ParseInt(s, 10, bitSize)]; [None] stands for a non-nil error
    (syntax or range), which is all the wizard looks at. *)
Definition ParseInt (s : string) (bitSize : Z) : option Z :=
  match String.list_ascii_of_string s with
  | [] => None
  | c :: rest =>
      let '(neg, body) :=
        if decide (c = "+"%char) then (false, rest)
        else if decide (c = "-"%char) then (true, rest)
        else (false, c :: rest) in
      match body with
      | [] => None
      | _ =>
          match digits body 0 with
          | None => None
          | Some un =>
              let cutoff := 2 ^ (bitSize - 1) in
              if negb neg && bool_decide (cutoff ≤ un) then None
              else if neg && bool_decide (cutoff < un) then None
              else Some (if neg then - un else un)
          end
      end
  end.

(** The port step of [deployServer]: [line] is what [reader.ReadString]
    returned; the result is [spec.Port], or [None] when the wizard reports
    an invalid port number and returns without deploying. *)
Definition deployServer_Port (line : string) : option Z :=
  let portStr := TrimSpace line in
  if decide (portStr = "") then Some 8080
  else
    match ParseInt portStr 32 with
    | Some port => Some (int32_wrap port)
    | None => None
    end.

End Wizard.

(** ** An in-memory cluster

    A test double for the clientset, in the manner of client-go's fake
    clientset: objects are kept in creation order and addressed by
    namespace and name.  It is used to run the operations on concrete
    inputs; the general results below hold for every clientset. *)

Module Fake.

Record Cluster := {
  deployments : list Deployment.t;
  services : list Service.t }.

Definition named (namespace name : string) (meta : ObjectMeta.t) : bool :=
  bool_decide (ObjectMeta.Namespace meta = namespace ∧ ObjectMeta.Name meta = name).

(** Splits an equality selector [key=value] at its first [=]. *)
Fixpoint splitSelector (s : string) : option (string * string) :=
  match s with
  | EmptyString => None
  | String c rest =>
      if decide (c = "="%char) then Some (EmptyString, rest)
      else
        match splitSelector rest with
        | Some (key, value) => Some (String c key, value)
        | None => None
        end
  end.

Definition selects (selector : string) (labels : gmap string string) : bool :=
  match splitSelector selector with
  | Some (key, value) => bool_decide (labels !! key = Some value)
  | None => true
  end.

Definition notFound : error := ApiError "not found".
Definition alreadyExists : error := ApiError "already exists".

Definition client : Clientset Cluster := {|
  deployments_create namespace deployment _ k :=
    let name := ObjectMeta.Name (Deployment.ObjectMeta deployment) in
    if existsb (λ d, named namespace name (Deployment.ObjectMeta d)) (deployments k)
    then (Some alreadyExists, k)
    else (None, {| deployments := deployments k ++ [deployment];
                   services := services k |});
  deployments_list namespace opts h k :=
    (inl (filter
            (λ d, ObjectMeta.Namespace (Deployment.ObjectMeta d) = namespace ∧
                  selects (ListOptions.LabelSelector opts)
                    (entries h (ObjectMeta.Labels (Deployment.ObjectMeta d))) = true)
            (deployments k)), h, k);
  deployments_delete namespace name k :=
    if existsb (λ d, named namespace name (Deployment.ObjectMeta d)) (deployments k)
    then (None,
          {| deployments :=
               filter (λ d, named namespace name (Deployment.ObjectMeta d) = false)
                 (deployments k);
             services := services k |})
    else (Some notFound, k);
  services_create namespace service _ k :=
    let name := ObjectMeta.Name (Service.ObjectMeta service) in
    if existsb (λ s, named namespace name (Service.ObjectMeta s)) (services k)
    then (Some alreadyExists, k)
    else (None, {| deployments := deployments k;
                   services := services k ++ [service] |});
  services_get namespace name h k :=
    match list_find (λ s, named namespace name (Service.ObjectMeta s) = true)
            (services k) with
    | Some (_, s) => (inl s, h, k)
    | None => (inr notFound, h, k)
    end;
  services_delete namespace name k :=
    if existsb (λ s, named namespace name (Service.ObjectMeta s)) (services k)
    then (None,
          {| deployments := deployments k;
             services :=
               filter (λ s, named namespace name (Service.ObjectMeta s) = false)
                 (services k) |})
    else (Some notFound, k) |}.

Definition empty : Cluster := {| deployments := []; services := [] |}.

Definition world (h : Heap) (k : Cluster) : World Cluster :=
  {| heap := h; kube := k; calls := [] |}.

End Fake.

(** ** Observers and sample inputs used in the results *)

(** The map a sequence of assignments [m[k] = v] leaves behind. *)
Definition assignAll (kvs : list (string * string)) (m : gmap string string)
  : gmap string string :=
  foldl (λ acc kv, <[kv.1 := kv.2]> acc) m kvs.

(** [fmt.Errorf(prefix + "%w", err)] applied when [err] is non-nil. *)
Definition wrapped (prefix : string) (err : option error) : option error :=
  match err with
  | Some e => Some (Errorf_w prefix e)
  | None => None
  end.

(** The objects handed to the two create primitives, read off a call log. *)
Definition createdDeployments (cs : list Call) : list Deployment.t :=
  omap (λ c, match c with DeploymentsCreate _ d => Some d | _ => None end) cs.

Definition createdServices (cs : list Call) : list Service.t :=
  omap (λ c, match c with ServicesCreate _ s => Some s | _ => None end) cs.

Definition containersOf (d : Deployment.t) : list Container.t :=
  PodSpec.Containers
    (PodTemplateSpec.Spec (DeploymentSpec.Template (Deployment.Spec d))).

Definition volumesOf (d : Deployment.t) : list Volume.t :=
  PodSpec.Volumes
    (PodTemplateSpec.Spec (DeploymentSpec.Template (Deployment.Spec d))).

Definition int32 (z : Z) : Prop := - 2 ^ 31 ≤ z < 2 ^ 31.

Definition available (d : Deployment.t) : bool :=
  bool_decide (DeploymentStatus.AvailableReplicas (Deployment.Status d) > 0).

(** The heap after [mergeLabels userLabels] has run in world [w]: one more
    location, holding the caller's entries and the identifying label. *)
Definition merged {K} (userLabels : GoMap) (w : World K) : Heap :=
  <[fresh (dom (heap w)) :=
      <[MCPServerLabel := "true"]> (entries (heap w) userLabels)]> (heap w).

(** A map value of a running Go program is nil or refers to a live map. *)
Definition allocated (h : Heap) (m : GoMap) : bool :=
  match m with
  | Some l => bool_decide (l ∈ dom h)
  | None => true
  end.

Definition containerPortsOf (d : Deployment.t) : list Z :=
  flat_map (λ c, map ContainerPort.ContainerPort (Container.Ports c))
    (containersOf d).

Definition servicePortsOf (s : Service.t) : list (Z * IntOrString) :=
  map (λ p, (ServicePort.Port p, ServicePort.TargetPort p))
    (ServiceSpec.Ports (Service.Spec s)).

(** The value of [listOptions] in [ListMCPServers]. *)
Definition listOptions : ListOptions.t :=
  {| ListOptions.LabelSelector := "mcp.opendatahub.io/mcp-server=true" |}.

Definition nameOf (d : Deployment.t) : string :=
  ObjectMeta.Name (Deployment.ObjectMeta d).

(** The lookup step of [projectStatus] in closed form: the endpoint it
    yields and the world it leaves. *)
Definition lookupStep {K} (clientset : Clientset K) (namespace : string)
    (d : Deployment.t) (w : World K) : string * World K :=
  if available d then
    let '(r, h, k) := services_get clientset namespace (nameOf d) (heap w) (kube w) in
    (match r with
     | inl service =>
         match ServiceSpec.Ports (Service.Spec service) with
         | port0 :: _ =>
             ObjectMeta.Name (Service.ObjectMeta service) +:+ ":" +:+
             pretty (ServicePort.Port port0)
         | [] => ""
         end
     | inr _ => ""
     end,
     {| heap := h; kube := k; calls := calls w ++ [ServicesGet namespace (nameOf d)] |})
  else ("", w).

(** The worlds in which the loop of [ListMCPServers] reaches the items of
    a listing, the first of them in [w]: the service of an available item
    is looked up before the next item is reached, an item that is not
    available leaves the world as it is. *)
Fixpoint lookupWorlds {K} (clientset : Clientset K) (namespace : string)
    (items : list Deployment.t) (w : World K) : list (World K) :=
  match items with
  | [] => []
  | d :: rest =>
      w :: lookupWorlds clientset namespace rest
             (if available d
              then (Services_Get clientset namespace (nameOf d) w).2
              else w)
  end.

Module Sample.

(** A caller-owned label map that already holds the identifying key with
    another value, at location 1. *)
Definition userHeap : Heap :=
  {[ 1%positive :=
       {[ "app" := "mcp"; MCPServerLabel := "false" ]} ]}.

Definition spec : MCPServerSpec.t :=
  {| MCPServerSpec.Name := "s1";
     MCPServerSpec.Namespace := "ns1";
     MCPServerSpec.Image := "img:v1";
     MCPServerSpec.Port := 9090;
     MCPServerSpec.EnvVars := [];
     MCPServerSpec.Args := [];
     MCPServerSpec.SecretMounts :=
       [ {| SecretMount.SecretName := "sec1"; SecretMount.MountPath := "/a" |};
         {| SecretMount.SecretName := "sec1"; SecretMount.MountPath := "/b" |} ];
     MCPServerSpec.ServiceAccount := "";
     MCPServerSpec.Labels := Some 1%positive;
     MCPServerSpec.Annotations := None;
     MCPServerSpec.Resources := None |}.

(** The same spec with [Port] left at the zero value of [int32]. *)
Definition specPortUnset : MCPServerSpec.t :=
  {| MCPServerSpec.Name := "s1";
     MCPServerSpec.Namespace := "ns1";
     MCPServerSpec.Image := "img:v1";
     MCPServerSpec.Port := 0;
     MCPServerSpec.EnvVars := [];
     MCPServerSpec.Args := [];
     MCPServerSpec.SecretMounts := [];
     MCPServerSpec.ServiceAccount := "";
     MCPServerSpec.Labels := None;
     MCPServerSpec.Annotations := None;
     MCPServerSpec.Resources := None |}.

Definition start : World Fake.Cluster := Fake.world userHeap Fake.empty.

Definition meta (name : string) : ObjectMeta.t :=
  {| ObjectMeta.Name := name; ObjectMeta.Namespace := "ns1";
     ObjectMeta.Labels := Some 1%positive; ObjectMeta.Annotations := None |}.

(** A stored workload with the given count of available replicas, no
    container and two conditions. *)
Definition workload (name : string) (availableReplicas : Z) : Deployment.t :=
  {| Deployment.ObjectMeta := meta name;
     Deployment.Spec :=
       {| DeploymentSpec.Replicas := Some 1;
          DeploymentSpec.Selector := None;
          DeploymentSpec.Template :=
            {| PodTemplateSpec.ObjectMeta := ObjectMeta.zero;
               PodTemplateSpec.Spec :=
                 {| PodSpec.ServiceAccountName := "";
                    PodSpec.Containers := [];
                    PodSpec.Volumes := [] |} |} |};
     Deployment.Status :=
       {| DeploymentStatus.ReadyReplicas := 0;
          DeploymentStatus.AvailableReplicas := availableReplicas;
          DeploymentStatus.Conditions :=
            [ {| DeploymentCondition.Type_ := "Available";
                 DeploymentCondition.Status := "True";
                 DeploymentCondition.Message := "ok" |};
              {| DeploymentCondition.Type_ := "Progressing";
                 DeploymentCondition.Status := "False";
                 DeploymentCondition.Message := "" |} ] |} |}.

(** A stored network object exposing port 9000. *)
Definition network (name : string) : Service.t :=
  {| Service.ObjectMeta := meta name;
     Service.Spec :=
       {| ServiceSpec.Selector := Some 1%positive;
          ServiceSpec.Ports :=
            [ {| ServicePort.Name := "mcp"; ServicePort.Port := 9000;
                 ServicePort.TargetPort := IntVal 9000;
                 ServicePort.Protocol := ProtocolTCP |} ];
          ServiceSpec.Type_ := ServiceTypeClusterIP |} |}.

Definition identified : Heap :=
  {[ 1%positive := {[ MCPServerLabel := "true" ]} ]}.

(** A cluster with one available workload and its network object. *)
Definition serving : World Fake.Cluster :=
  Fake.world identified
    {| Fake.deployments := [workload "svc-a" 1];
       Fake.services := [network "svc-a"] |}.

(** A cluster with a workload without available replicas whose network
    object exists all the same. *)
Definition idle : World Fake.Cluster :=
  Fake.world identified
    {| Fake.deployments := [workload "svc-a" 0];
       Fake.services := [network "svc-a"] |}.

(** A cluster whose workload exists but whose network object is gone. *)
Definition orphaned : World Fake.Cluster :=
  Fake.world identified
    {| Fake.deployments := [workload "svc-a" 1];
       Fake.services := [] |}.

End Sample.

(** ** The rest of the wizard, [cmd/wizard/main.go]

    Standard input is read through one [bufio.Reader] and only with
    [ReadString('\n')], whose error result the wizard always drops.  The
    reader is therefore modelled by the strings those calls are going to
    deliver, in order: each is a line with its terminator, the last may be
    a partial line, and once the list is used up every further call
    delivers the empty string (end of input).  What the wizard prints is
    not modelled. *)

Module Cli.

Definition Reader := list string.

(** [reader.ReadString('\n')]: the delivered string and the reader
    afterwards. *)
Definition ReadString (reader : Reader) : string * Reader :=
  (match reader with [] => EmptyString | line :: _ => line end,
   match reader with [] => reader | _ :: rest => rest end).

Definition lowerByte (c : ascii) : ascii :=
  let n := Ascii.N_of_ascii c in
  if bool_decide (65 ≤ n ≤ 90)%N then Ascii.ascii_of_N (n + 32) else c.

(** [strings.ToLower] on the ASCII letters; other bytes are kept.  The
    wizard only compares the result with the words [yes], [y] and
    [secret]: no rune outside ASCII has a letter of these words as its
    lower case, so the comparisons come out as in Go. *)
Fixpoint ToLower (s : string) : string :=
  match s with
  | EmptyString => EmptyString
  | String c rest => String (lowerByte c) (ToLower rest)
  end.

(** The test [response != "yes" && response != "y"] on an answer as
    read. *)
Definition declined (answer : string) : bool :=
  let response := ToLower (Wizard.TrimSpace answer) in
  bool_decide (response ≠ "yes" ∧ response ≠ "y").

(** The loop of [promptForEnvVars]. *)
Fixpoint envVarsLoop (reader : Reader) (envVars : list EnvVar.t)
  : list EnvVar.t * Reader :=
  match reader with
  | [] => (envVars, reader)
  | line :: reader1 =>
      let name := Wizard.TrimSpace line in
      if decide (name = "") then (envVars, reader1)
      else
        let varType := ToLower (Wizard.TrimSpace (ReadString reader1).1) in
        let reader2 := (ReadString reader1).2 in
        if decide (varType = "secret") then
          let secretName := Wizard.TrimSpace (ReadString reader2).1 in
          let reader3 := (ReadString reader2).2 in
          let secretKey := Wizard.TrimSpace (ReadString reader3).1 in
          let reader4 := (ReadString reader3).2 in
          envVarsLoop reader4
            (envVars ++
             [ {| EnvVar.Name := name;
                  EnvVar.Value := "";
                  EnvVar.ValueFrom :=
                    Some {| EnvVarSource.SecretKeyRef :=
                              Some {| SecretKeySelector.Name := secretName;
                                      SecretKeySelector.Key := secretKey |} |} |} ])
        else
          let value := (ReadString reader2).1 in
          let reader3 := (ReadString reader2).2 in
          envVarsLoop reader3
            (envVars ++
             [ {| EnvVar.Name := name;
                  EnvVar.Value := Wizard.TrimSpace value;
                  EnvVar.ValueFrom := None |} ])
  end.

Definition promptForEnvVars (reader : Reader) : list EnvVar.t * Reader :=
  let envVars := [] in
  let response := (ReadString reader).1 in
  let reader := (ReadString reader).2 in
  if declined response then (envVars, reader)
  else envVarsLoop reader envVars.

(** The loop of [promptForArgs]. *)
Fixpoint argsLoop (reader : Reader) (args : list string)
  : list string * Reader :=
  match reader with
  | [] => (args, reader)
  | line :: reader1 =>
      let arg := Wizard.TrimSpace line in
      if decide (arg = "") then (args, reader1)
      else argsLoop reader1 (args ++ [arg])
  end.

Definition promptForArgs (reader : Reader) : list string * Reader :=
  let args := [] in
  let response := (ReadString reader).1 in
  let reader := (ReadString reader).2 in
  if declined response then (args, reader)
  else argsLoop reader args.

(** The loop of [promptForSecretMounts]; an empty mount path takes the
    [continue]. *)
Fixpoint secretMountsLoop (reader : Reader) (secretMounts : list SecretMount.t)
  : list SecretMount.t * Reader :=
  match reader with
  | [] => (secretMounts, reader)
  | line :: reader1 =>
      let secretName := Wizard.TrimSpace line in
      if decide (secretName = "") then (secretMounts, reader1)
      else
        let mountPath := Wizard.TrimSpace (ReadString reader1).1 in
        let reader2 := (ReadString reader1).2 in
        if decide (mountPath = "") then secretMountsLoop reader2 secretMounts
        else
          secretMountsLoop reader2
            (secretMounts ++
             [ {| SecretMount.SecretName := secretName;
                  SecretMount.MountPath := mountPath |} ])
  end.

Definition promptForSecretMounts (reader : Reader)
  : list SecretMount.t * Reader :=
  let secretMounts := [] in
  let response := (ReadString reader).1 in
  let reader := (ReadString reader).2 in
  if declined response then (secretMounts, reader)
  else secretMountsLoop reader secretMounts.

(** A secret mount with both of its fields filled in. *)
Definition complete (m : SecretMount.t) : Prop :=
  SecretMount.SecretName m ≠ "" ∧ SecretMount.MountPath m ≠ "".

(** An environment entry with a name and either a literal value or a
    reference to a secret key, never both. *)
Definition wellFormed (e : EnvVar.t) : Prop :=
  EnvVar.Name e ≠ "" ∧
  (EnvVar.ValueFrom e = None ∨
   EnvVar.Value e = "" ∧
   ∃ secretName secretKey,
     EnvVar.ValueFrom e =
       Some {| EnvVarSource.SecretKeyRef :=
                 Some {| SecretKeySelector.Name := secretName;
                         SecretKeySelector.Key := secretKey |} |}).

(** The pairs the loop of [promptForKeyValuePairs] assigns, in order, and
    the reader it leaves: the loop without the map. *)
Fixpoint typedPairs (reader : Reader) : list (string * string) * Reader :=
  match reader with
  | [] => ([], reader)
  | line :: reader1 =>
      let key := Wizard.TrimSpace line in
      if decide (key = "") then ([], reader1)
      else
        let value := Wizard.TrimSpace (ReadString reader1).1 in
        let r := typedPairs (ReadString reader1).2 in
        ((key, value) :: r.1, r.2)
  end.

(** The two entries a resource list can receive. *)
Definition filled (cpu memory : option string) : gmap string string :=
  let list : gmap string string := ∅ in
  let list := match cpu with Some q => <["cpu" := q]> list | None => list end in
  match memory with Some q => <["memory" := q]> list | None => list end.

(** [corev1.ResourceCPU] and [corev1.ResourceMemory]. *)
Definition ResourceCPU : string := "cpu".
Definition ResourceMemory : string := "memory".

Section Resources.

(** [resource.ParseQuantity] of apimachinery, with the quantity in its
    textual form. *)
Context (ParseQuantity : string → string + error).

Definition parseResourceQuantity (value : string) : string + error :=
  match ParseQuantity value with
  | inl quantity => inl quantity
  | inr err => inr (Errorf_w "invalid quantity: " err)
  end.

(** One of the four steps of [promptForResources]: [list] is
    [resources.Requests] or [resources.Limits], [name] the resource the
    answer is stored under. *)
Definition resourceStep (answer : string) (name : string)
    (list : gmap string string) : gmap string string :=
  let value := Wizard.TrimSpace answer in
  if decide (value ≠ "") then
    match parseResourceQuantity value with
    | inr _ => list
    | inl quantity => <[name := quantity]> list
    end
  else list.

Definition promptForResources (reader : Reader)
  : option ResourceRequirements.t * Reader :=
  let response := (ReadString reader).1 in
  let reader := (ReadString reader).2 in
  if declined response then (None, reader)
  else
    let requests : gmap string string := ∅ in
    let limits : gmap string string := ∅ in
    let requests := resourceStep (ReadString reader).1 ResourceCPU requests in
    let reader := (ReadString reader).2 in
    let requests := resourceStep (ReadString reader).1 ResourceMemory requests in
    let reader := (ReadString reader).2 in
    let limits := resourceStep (ReadString reader).1 ResourceCPU limits in
    let reader := (ReadString reader).2 in
    let limits := resourceStep (ReadString reader).1 ResourceMemory limits in
    let reader := (ReadString reader).2 in
    if bool_decide (size requests = 0%nat ∧ size limits = 0%nat)
    then (None, reader)
    else (Some {| ResourceRequirements.Limits := Some limits;
                  ResourceRequirements.Requests := Some requests |}, reader).

(** What one answer of [promptForResources] puts into its slot. *)
Definition slot (answer : string) : option string :=
  let value := Wizard.TrimSpace answer in
  if decide (value = "") then None
  else match ParseQuantity value with
       | inl quantity => Some quantity
       | inr _ => None
       end.

End Resources.

Section Commands.

Context {K : Type} (clientset : Clientset K).
Context (ParseQuantity : string → string + error).

Local Open Scope go_scope.

(** The loop of [promptForKeyValuePairs]; [pairs] is the map made at the
    start of the function. *)
Fixpoint pairsLoop (reader : Reader) (pairs : loc) : Go K Reader :=
  match reader with
  | [] => ret reader
  | line :: reader1 =>
      let key := Wizard.TrimSpace line in
      if decide (key = "") then ret reader1
      else
        let value := Wizard.TrimSpace (ReadString reader1).1 in
        let reader2 := (ReadString reader1).2 in
        map_assign pairs key value ;;;
        pairsLoop reader2 pairs
  end.

Definition promptForKeyValuePairs (reader : Reader) : Go K (GoMap * Reader) :=
  pairs <- make_map ;;
  let response := (ReadString reader).1 in
  let reader := (ReadString reader).2 in
  if declined response then ret (Some pairs, reader)
  else
    reader <- pairsLoop reader pairs ;;
    ret (Some pairs, reader).

Definition namespaceOr_default (answer : string) : string :=
  let namespace := Wizard.TrimSpace answer in
  if decide (namespace = "") then "default" else namespace.

Definition listServers (reader : Reader) : Go K Reader :=
  let namespace := namespaceOr_default (ReadString reader).1 in
  let reader := (ReadString reader).2 in
  _ <- ListMCPServers clientset namespace ;;
  ret reader.

Definition deployServer (reader : Reader) : Go K Reader :=
  labels0 <- make_map ;;
  annotations0 <- make_map ;;
  let name := Wizard.TrimSpace (ReadString reader).1 in
  let reader := (ReadString reader).2 in
  if decide (name = "") then ret reader
  else
    let namespace := namespaceOr_default (ReadString reader).1 in
    let reader := (ReadString reader).2 in
    let image := Wizard.TrimSpace (ReadString reader).1 in
    let reader := (ReadString reader).2 in
    if decide (image = "") then ret reader
    else
      let portStr := (ReadString reader).1 in
      let reader := (ReadString reader).2 in
      match Wizard.deployServer_Port portStr with
      | None => ret reader
      | Some port =>
          let '(envVars, reader) := promptForEnvVars reader in
          let '(args, reader) := promptForArgs reader in
          let '(secretMounts, reader) := promptForSecretMounts reader in
          let serviceAccount := Wizard.TrimSpace (ReadString reader).1 in
          let reader := (ReadString reader).2 in
          labels <- promptForKeyValuePairs reader ;;
          annotations <- promptForKeyValuePairs labels.2 ;;
          let '(resources, reader) :=
            promptForResources ParseQuantity annotations.2 in
          let confirm := (ReadString reader).1 in
          let reader := (ReadString reader).2 in
          if declined confirm then ret reader
          else
            let spec :=
              {| MCPServerSpec.Name := name;
                 MCPServerSpec.Namespace := namespace;
                 MCPServerSpec.Image := image;
                 MCPServerSpec.Port := port;
                 MCPServerSpec.EnvVars := envVars;
                 MCPServerSpec.Args := args;
                 MCPServerSpec.SecretMounts := secretMounts;
                 MCPServerSpec.ServiceAccount := serviceAccount;
                 MCPServerSpec.Labels := labels.1;
                 MCPServerSpec.Annotations := annotations.1;
                 MCPServerSpec.Resources := resources |} in
            _ <- DeployMCPServer clientset spec ;;
            ret reader
      end.

Definition deleteServer (reader : Reader) : Go K Reader :=
  let namespace := namespaceOr_default (ReadString reader).1 in
  let reader := (ReadString reader).2 in
  listed <- ListMCPServers clientset namespace ;;
  match listed.2 with
  | Some _ => ret reader
  | None =>
      if bool_decide (length listed.1 = 0%nat) then ret reader
      else
        let name := Wizard.TrimSpace (ReadString reader).1 in
        let reader := (ReadString reader).2 in
        if decide (name = "") then ret reader
        else
          let confirm := (ReadString reader).1 in
          let reader := (ReadString reader).2 in
          if declined confirm then ret reader
          else
            _ <- DeleteMCPServer clientset namespace name ;;
            ret reader
  end.

End Commands.

Section Menu.

Context {K : Type} (clientset : Clientset K).
Context (ParseQuantity : string → string + error).

Local Open Scope go_scope.

(** The menu loop of [main], from the creation of the reader on; [fuel]
    bounds the number of iterations.  The result is the reader at the
    [return] of case ["4"], or [None] when the loop is still running after
    [fuel] iterations. *)
Fixpoint menu (fuel : nat) (reader : Reader) : Go K (option Reader) :=
  match fuel with
  | O => ret None
  | S fuel =>
      let choice := Wizard.TrimSpace (ReadString reader).1 in
      let reader := (ReadString reader).2 in
      if decide (choice = "1") then
        reader <- listServers clientset reader ;; menu fuel reader
      else if decide (choice = "2") then
        reader <- deployServer clientset ParseQuantity reader ;; menu fuel reader
      else if decide (choice = "3") then
        reader <- deleteServer clientset reader ;; menu fuel reader
      else if decide (choice = "4") then ret (Some reader)
      else menu fuel reader
  end.

End Menu.

End Cli.

(** The manifests [createDeployment] and [createService] build when the
    heap is [h]: their label map is the next location made. *)
Definition deploymentOf (spec : MCPServerSpec.t) (h : Heap) : Deployment.t :=
  let built := secretVolumes 0 (MCPServerSpec.SecretMounts spec) [] [] in
  deploymentManifest spec (Some (fresh (dom h))) built.1 built.2.

Definition serviceOf (spec : MCPServerSpec.t) (h : Heap) : Service.t :=
  serviceManifest spec (Some (fresh (dom h))).

Definition is_delete (c : Call) : bool :=
  match c with
  | DeploymentsDelete _ _ | ServicesDelete _ _ => true
  | _ => false
  end.

Definition is_read (c : Call) : bool :=
  match c with
  | DeploymentsList _ _ | ServicesGet _ _ => true
  | _ => false
  end.

Module Session.

(** A stand-in for [resource.ParseQuantity]: it accepts the answers that
    start with a digit and keeps their text. *)
Definition parseQuantity (value : string) : string + error :=
  match value with
  | String c _ =>
      if bool_decide (is_Some (Wizard.digit c)) then inl value
      else inr (ApiError "unable to parse quantity")
  | EmptyString => inr (ApiError "unable to parse quantity")
  end.

(** The answers of a deployment through the wizard: a server [s1], the
    default namespace and port, one secret mount after one given without
    a path, one label typed twice, a CPU request, and the confirmation. *)
Definition deploy : Cli.Reader :=
  [ " s1 "; ""; "img:v1"; "";
    "no";
    "no";
    "yes"; "orphan"; ""; "sec1"; "/a"; "";
    "";
    "y"; "app"; "old"; "app"; "mcp"; "";
    "no";
    "yes"; "100m"; "lots"; ""; "";
    "YES" ].

(** The answers of a deletion of [svc-a] in namespace [ns1]. *)
Definition delete : Cli.Reader := [ "ns1"; "svc-a"; "yes" ].

End Session.

(** * Results *)

(** ** The label-merging loop *)

Section MapLoop.
Context {K : Type}.

Lemma for_each_assign (l : loc) (kvs : list (string * string)) (w : World K) :
  for_each kvs (λ kv, map_assign l kv.1 kv.2) w =
  (tt, {| heap := alter (assignAll kvs) l (heap w);
          kube := kube w; calls := calls w |}).
Proof.
  revert w. induction kvs as [|kv kvs IH]; intros [h k c]; simpl.
  - unfold ret; simpl. by rewrite alter_id.
  - unfold bind; simpl. rewrite IH; simpl.
    by rewrite alter_alter_eq.
Qed.

Lemma assignAll_lookup kvs m k :
  NoDup kvs.*1 →
  assignAll kvs m !! k =
    match list_to_map (M := gmap string string) kvs !! k with
    | Some v => Some v
    | None => m !! k
    end.
Proof.
  revert m. induction kvs as [|[k' v'] kvs IH]; intros m Hnd.
  - simpl. by rewrite lookup_empty.
  - apply NoDup_cons in Hnd as [Hnotin Hnd].
    change (assignAll ((k', v') :: kvs) m) with (assignAll kvs (<[k' := v']> m)).
    rewrite IH by done. cbn [list_to_map foldr uncurry fst snd].
    destruct (decide (k' = k)) as [->|Hne].
    + rewrite !lookup_insert_eq.
      by rewrite (not_elem_of_list_to_map_1 kvs k).
    + rewrite !lookup_insert_ne by done. done.
Qed.

(** Whatever order the entries of [m] are visited in, assigning them one
    by one into an empty map rebuilds [m]. *)
Lemma assignAll_entries kvs (m : gmap string string) :
  kvs ≡ₚ map_to_list m → assignAll kvs ∅ = m.
Proof.
  intros Hp. apply map_eq; intros k.
  assert (NoDup kvs.*1) as Hnd.
  { rewrite Hp. apply NoDup_fst_map_to_list. }
  rewrite assignAll_lookup by done.
  rewrite (list_to_map_proper kvs (map_to_list m)) by done.
  rewrite list_to_map_to_list. rewrite lookup_empty. by destruct (m !! k).
Qed.

Lemma range_order_irrelevant (l : loc) kvs (m : gmap string string) (w : World K) :
  kvs ≡ₚ map_to_list m →
  heap w !! l = Some ∅ →
  heap (for_each kvs (λ kv, map_assign l kv.1 kv.2) w).2 !! l = Some m.
Proof.
  intros Hp Hl. rewrite for_each_assign; simpl.
  rewrite lookup_alter_eq, Hl; simpl. by rewrite (assignAll_entries kvs m).
Qed.

Lemma fresh_unallocated (h : Heap) : h !! fresh (dom h) = None.
Proof. apply not_elem_of_dom, is_fresh. Qed.

(** [mergeLabels] in closed form: one allocation, holding the caller's
    entries with the identifying key forced to ["true"]. *)
Lemma mergeLabels_run (userLabels : GoMap) (w : World K) :
  mergeLabels userLabels w =
  (Some (fresh (dom (heap w))),
   {| heap := <[fresh (dom (heap w)) :=
                  <[MCPServerLabel := "true"]> (entries (heap w) userLabels)]> (heap w);
      kube := kube w; calls := calls w |}).
Proof.
  destruct w as [h k c]. unfold mergeLabels, bind, make_map, map_range, ret; simpl.
  rewrite for_each_assign; simpl. unfold map_assign; simpl.
  f_equal. f_equal.
  rewrite alter_alter_eq, alter_insert_eq; simpl.
  f_equal. f_equal.
  assert (entries (<[fresh (dom h) := ∅]> h) userLabels = entries h userLabels) as ->.
  { destruct userLabels as [l'|]; [|done]; simpl.
    destruct (decide (fresh (dom h) = l')) as [<-|Hne].
    - by rewrite lookup_insert_eq, fresh_unallocated.
    - by rewrite lookup_insert_ne. }
  by apply assignAll_entries.
Qed.

End MapLoop.

(** ** The spec-to-manifest translator *)

Section Translator.
Context {K : Type} (clientset : Clientset K).

Lemma createDeployment_run (spec : MCPServerSpec.t) (w : World K) :
  let labels := Some (fresh (dom (heap w))) in
  let h := merged (MCPServerSpec.Labels spec) w in
  let vm := secretVolumes 0 (MCPServerSpec.SecretMounts spec) [] [] in
  let deployment := deploymentManifest spec labels vm.1 vm.2 in
  let r := deployments_create clientset (MCPServerSpec.Namespace spec)
             deployment h (kube w) in
  createDeployment clientset spec w =
  (wrapped "failed to create deployment: " r.1,
   {| heap := h; kube := r.2;
      calls := calls w ++
               [DeploymentsCreate (MCPServerSpec.Namespace spec) deployment] |}).
Proof.
  cbv zeta. unfold createDeployment, bind. rewrite mergeLabels_run.
  unfold merged.
  destruct (secretVolumes 0 (MCPServerSpec.SecretMounts spec) [] [])
    as [volumes volumeMounts].
  unfold Deployments_Create; simpl.
  destruct (deployments_create clientset _ _ _ (kube w)) as [[e|] k]; reflexivity.
Qed.

Lemma createService_run (spec : MCPServerSpec.t) (w : World K) :
  let labels := Some (fresh (dom (heap w))) in
  let h := merged (MCPServerSpec.Labels spec) w in
  let service := serviceManifest spec labels in
  let r := services_create clientset (MCPServerSpec.Namespace spec)
             service h (kube w) in
  createService clientset spec w =
  (wrapped "failed to create service: " r.1,
   {| heap := h; kube := r.2;
      calls := calls w ++
               [ServicesCreate (MCPServerSpec.Namespace spec) service] |}).
Proof.
  cbv zeta. unfold createService, bind. rewrite mergeLabels_run.
  unfold merged, Services_Create; simpl.
  destruct (services_create clientset _ _ _ (kube w)) as [[e|] k]; reflexivity.
Qed.

Lemma DeployMCPServer_run (spec : MCPServerSpec.t) (w : World K) :
  DeployMCPServer clientset spec w =
  let r := createDeployment clientset spec w in
  match r.1 with
  | Some e => (Some (Errorf_w "failed to create deployment: " e), r.2)
  | None =>
      let r' := createService clientset spec r.2 in
      (wrapped "failed to create service: " r'.1, r'.2)
  end.
Proof.
  unfold DeployMCPServer, bind.
  destruct (createDeployment clientset spec w) as [[e|] w1]; simpl; [done|].
  destruct (createService clientset spec w1) as [[e|] w2]; done.
Qed.

Lemma merged_frame (userLabels : GoMap) (w : World K) (l : loc) :
  l ∈ dom (heap w) → merged userLabels w !! l = heap w !! l.
Proof.
  intros Hl. unfold merged. apply lookup_insert_ne.
  intros <-. by apply (is_fresh (dom (heap w))).
Qed.

Lemma secretVolumes_run (mounts : list SecretMount.t) :
  ∀ i volumes volumeMounts,
    secretVolumes i mounts volumes volumeMounts =
    (volumes ++
       imap (λ j m,
               {| Volume.Name := "secret-" +:+ pretty (i + j)%nat;
                  Volume.VolumeSource :=
                    {| VolumeSource.Secret :=
                         Some {| SecretVolumeSource.SecretName :=
                                   SecretMount.SecretName m |} |} |}) mounts,
     volumeMounts ++
       imap (λ j m,
               {| VolumeMount.Name := "secret-" +:+ pretty (i + j)%nat;
                  VolumeMount.MountPath := SecretMount.MountPath m;
                  VolumeMount.ReadOnly := true |}) mounts).
Proof.
  induction mounts as [|m mounts IH]; intros i volumes volumeMounts; simpl.
  - by rewrite !app_nil_r.
  - rewrite IH. rewrite <- !app_assoc; simpl.
    rewrite Nat.add_0_r.
    f_equal; f_equal; f_equal; apply imap_ext; intros j x _; simpl;
      by rewrite Nat.add_succ_r.
Qed.


(** Claim C1.  For every spec, the deployment that [createDeployment] hands
    to the create primitive carries a label map that binds
    [mcp.opendatahub.io/mcp-server] to ["true"]; the map is exactly the
    caller's entries with that one key overwritten, so a value the caller
    supplied for the key is discarded. *)
Theorem createDeployment_identifying_label (spec : MCPServerSpec.t) (w : World K) :
  ∃ deployment,
    calls (createDeployment clientset spec w).2 =
      calls w ++ [DeploymentsCreate (MCPServerSpec.Namespace spec) deployment] ∧
    let labels :=
      entries (heap (createDeployment clientset spec w).2)
        (ObjectMeta.Labels (Deployment.ObjectMeta deployment)) in
    labels !! MCPServerLabel = Some "true" ∧
    labels = <[MCPServerLabel := "true"]> (entries (heap w) (MCPServerSpec.Labels spec)).
Proof.
  rewrite createDeployment_run; simpl. eexists; split; [reflexivity|]; simpl.
  unfold merged. rewrite lookup_insert_eq; simpl.
  by rewrite lookup_insert_eq.
Qed.

(** Claim C3.  The selector of the service built by [createService] has
    the same entries as the label map of the deployment built by
    [createDeployment] for the same spec, namely the merged labels; within
    the deployment the selector's [MatchLabels] and the pod template's
    labels are that very map, and the service's labels are its selector.
    The two constructions may start in different worlds, as they do inside
    [DeployMCPServer], as long as the caller's label map reads the same in
    both. *)
Theorem service_selector_matches_deployment_labels
    (spec : MCPServerSpec.t) (w w' : World K) :
  entries (heap w') (MCPServerSpec.Labels spec) =
    entries (heap w) (MCPServerSpec.Labels spec) →
  ∃ deployment service,
    calls (createDeployment clientset spec w).2 =
      calls w ++ [DeploymentsCreate (MCPServerSpec.Namespace spec) deployment] ∧
    calls (createService clientset spec w').2 =
      calls w' ++ [ServicesCreate (MCPServerSpec.Namespace spec) service] ∧
    entries (heap (createService clientset spec w').2)
      (ServiceSpec.Selector (Service.Spec service)) =
    entries (heap (createDeployment clientset spec w).2)
      (ObjectMeta.Labels (Deployment.ObjectMeta deployment)) ∧
    entries (heap (createDeployment clientset spec w).2)
      (ObjectMeta.Labels (Deployment.ObjectMeta deployment)) =
    <[MCPServerLabel := "true"]> (entries (heap w) (MCPServerSpec.Labels spec)) ∧
    DeploymentSpec.Selector (Deployment.Spec deployment) =
      Some {| LabelSelector.MatchLabels :=
                ObjectMeta.Labels (Deployment.ObjectMeta deployment) |} ∧
    ObjectMeta.Labels
      (PodTemplateSpec.ObjectMeta
         (DeploymentSpec.Template (Deployment.Spec deployment))) =
      ObjectMeta.Labels (Deployment.ObjectMeta deployment) ∧
    ObjectMeta.Labels (Service.ObjectMeta service) =
      ServiceSpec.Selector (Service.Spec service).
Proof.
  intros Hsame. rewrite createDeployment_run, createService_run; simpl.
  do 2 eexists. do 2 (split; [reflexivity|]); simpl.
  unfold merged. rewrite !lookup_insert_eq; simpl. by rewrite Hsame.
Qed.

(** Claim C4.  With [n] secret mounts in the spec, the deployment has [n]
    volumes and its single container [n] volume mounts; at every position
    [i] the volume is named [secret-<i>] and backed by the [i]-th secret
    name, and the mount is read-only, bound to [secret-<i>], at the [i]-th
    mount path.  Positions follow the spec, and nothing is merged when two
    entries name the same secret. *)
Theorem secret_mounts_expand_by_position (spec : MCPServerSpec.t) (w : World K) :
  ∃ deployment container,
    calls (createDeployment clientset spec w).2 =
      calls w ++ [DeploymentsCreate (MCPServerSpec.Namespace spec) deployment] ∧
    containersOf deployment = [container] ∧
    length (volumesOf deployment) = length (MCPServerSpec.SecretMounts spec) ∧
    length (Container.VolumeMounts container) =
      length (MCPServerSpec.SecretMounts spec) ∧
    ∀ (i : nat) (secretMount : SecretMount.t),
      MCPServerSpec.SecretMounts spec !! i = Some secretMount →
      volumesOf deployment !! i =
        Some {| Volume.Name := "secret-" +:+ pretty i;
                Volume.VolumeSource :=
                  {| VolumeSource.Secret :=
                       Some {| SecretVolumeSource.SecretName :=
                                 SecretMount.SecretName secretMount |} |} |} ∧
      Container.VolumeMounts container !! i =
        Some {| VolumeMount.Name := "secret-" +:+ pretty i;
                VolumeMount.MountPath := SecretMount.MountPath secretMount;
                VolumeMount.ReadOnly := true |}.
Proof.
  rewrite createDeployment_run, secretVolumes_run; simpl. do 2 eexists.
  split; [reflexivity|]. split; [reflexivity|].
  unfold volumesOf; simpl.
  rewrite !length_imap. do 2 (split; [reflexivity|]).
  intros i secretMount Hi. by rewrite !list_lookup_imap, Hi.
Qed.

(** Claim C9.  The container of the deployment carries the spec's resource
    requirements when the spec sets them, and the zero-valued
    [ResourceRequirements] (both lists nil) when it does not; the field is
    a value, never absent. *)
Theorem resources_default_to_zero_value (spec : MCPServerSpec.t) (w : World K) :
  ∃ deployment container,
    calls (createDeployment clientset spec w).2 =
      calls w ++ [DeploymentsCreate (MCPServerSpec.Namespace spec) deployment] ∧
    containersOf deployment = [container] ∧
    Container.Resources container =
      match MCPServerSpec.Resources spec with
      | Some resources => resources
      | None => {| ResourceRequirements.Limits := None;
                   ResourceRequirements.Requests := None |}
      end.
Proof.
  rewrite createDeployment_run; simpl. do 2 eexists.
  split; [reflexivity|]. split; [reflexivity|]. simpl.
  by destruct (MCPServerSpec.Resources spec).
Qed.

Lemma merged_dom (userLabels : GoMap) (w : World K) :
  dom (heap w) ⊆ dom (merged userLabels w).
Proof. unfold merged. rewrite dom_insert_L. set_solver. Qed.

Lemma createDeployment_frame (spec : MCPServerSpec.t) (w : World K) (l : loc) :
  l ∈ dom (heap w) →
  heap (createDeployment clientset spec w).2 !! l = heap w !! l.
Proof. rewrite createDeployment_run; simpl. apply merged_frame. Qed.

Lemma createService_frame (spec : MCPServerSpec.t) (w : World K) (l : loc) :
  l ∈ dom (heap w) →
  heap (createService clientset spec w).2 !! l = heap w !! l.
Proof. rewrite createService_run; simpl. apply merged_frame. Qed.

Lemma DeployMCPServer_frame (spec : MCPServerSpec.t) (w : World K) (l : loc) :
  l ∈ dom (heap w) →
  heap (DeployMCPServer clientset spec w).2 !! l = heap w !! l.
Proof.
  intros Hl. rewrite DeployMCPServer_run; cbv zeta.
  destruct ((createDeployment clientset spec w).1) eqn:Herr; simpl.
  - by apply createDeployment_frame.
  - rewrite createService_frame.
    + by apply createDeployment_frame.
    + rewrite createDeployment_run; simpl. by apply merged_dom.
Qed.

Lemma frame_entries (h h' : Heap) (m : GoMap) :
  allocated h m = true →
  (∀ l, l ∈ dom h → h' !! l = h !! l) →
  entries h' m = entries h m.
Proof.
  intros Hm Hframe. destruct m as [l|]; [|done]; simpl in *.
  apply bool_decide_eq_true in Hm. by rewrite Hframe.
Qed.

(** Claim C10.  [mergeLabels] writes into a location that was not in use,
    so building either manifest, or running [DeployMCPServer], leaves every
    map that existed before untouched: the caller's label map has the
    entries it had (in particular the same binding, or none, for the
    identifying key), and so has the annotation map.  The spec itself is
    passed by value here: the source holds no assignment to a field of
    [*spec]. *)
Theorem manifests_preserve_caller_maps (spec : MCPServerSpec.t) (w : World K) :
  allocated (heap w) (MCPServerSpec.Labels spec) = true →
  allocated (heap w) (MCPServerSpec.Annotations spec) = true →
  (∃ l, (mergeLabels (MCPServerSpec.Labels spec) w).1 = Some l ∧
        (l ∉ dom (heap w)) ∧
        heap (mergeLabels (MCPServerSpec.Labels spec) w).2 =
          <[l := <[MCPServerLabel := "true"]>
                   (entries (heap w) (MCPServerSpec.Labels spec))]> (heap w)) ∧
  Forall
    (λ after : Heap,
       (∀ l, l ∈ dom (heap w) → after !! l = heap w !! l) ∧
       entries after (MCPServerSpec.Labels spec) =
         entries (heap w) (MCPServerSpec.Labels spec) ∧
       entries after (MCPServerSpec.Labels spec) !! MCPServerLabel =
         entries (heap w) (MCPServerSpec.Labels spec) !! MCPServerLabel ∧
       entries after (MCPServerSpec.Annotations spec) =
         entries (heap w) (MCPServerSpec.Annotations spec))
    [ heap (createDeployment clientset spec w).2;
      heap (createService clientset spec w).2;
      heap (DeployMCPServer clientset spec w).2 ].
Proof.
  intros Hlabels Hannotations. split.
  - rewrite mergeLabels_run; simpl. eexists. split; [reflexivity|].
    split; [apply is_fresh|reflexivity].
  - assert (∀ after : Heap,
              (∀ l, l ∈ dom (heap w) → after !! l = heap w !! l) →
              (∀ l, l ∈ dom (heap w) → after !! l = heap w !! l) ∧
              entries after (MCPServerSpec.Labels spec) =
                entries (heap w) (MCPServerSpec.Labels spec) ∧
              entries after (MCPServerSpec.Labels spec) !! MCPServerLabel =
                entries (heap w) (MCPServerSpec.Labels spec) !! MCPServerLabel ∧
              entries after (MCPServerSpec.Annotations spec) =
                entries (heap w) (MCPServerSpec.Annotations spec)) as Hall.
    { intros after Hframe. split; [done|].
      rewrite !(frame_entries (heap w) after) by done. done. }
    repeat apply Forall_cons_2; [| | |apply Forall_nil_2]; apply Hall; intros l Hl.
    + by apply createDeployment_frame.
    + by apply createService_frame.
    + by apply DeployMCPServer_frame.
Qed.

End Translator.

(** ** Ports *)

Lemma int32_wrap_id (z : Z) : int32 z → int32_wrap z = z.
Proof.
  unfold int32, int32_wrap. intros Hz.
  rewrite Z.mod_small by lia. lia.
Qed.


(** ** Deletion *)

Section Deletion.
Context {K : Type} (clientset : Clientset K).

(** Claim C2.  [DeleteMCPServer] deletes the deployment first.  If that
    fails, the error is returned wrapped, the service-delete primitive is
    not invoked and the cluster is as the failed deletion left it.  If it
    succeeds, the service is deleted next; when that fails the wrapped
    error is returned while the cluster keeps the effect of the deployment
    deletion: the call log holds the two deletions and nothing else, so
    nothing is rolled back. *)
Theorem DeleteMCPServer_sequencing (namespace name : string) (w : World K) :
  let workload := deployments_delete clientset namespace name (kube w) in
  let network := services_delete clientset namespace name workload.2 in
  let r := DeleteMCPServer clientset namespace name w in
  (∀ e, workload.1 = Some e →
     r.1 = Some (Errorf_w "failed to delete deployment: " e) ∧
     calls r.2 = calls w ++ [DeploymentsDelete namespace name] ∧
     filter (λ c, is_ServicesDelete c = true) (calls r.2) =
       filter (λ c, is_ServicesDelete c = true) (calls w) ∧
     kube r.2 = workload.2) ∧
  (workload.1 = None →
     calls r.2 = calls w ++ [DeploymentsDelete namespace name;
                             ServicesDelete namespace name] ∧
     kube r.2 = network.2 ∧
     (∀ e, network.1 = Some e →
        r.1 = Some (Errorf_w "failed to delete service: " e)) ∧
     (network.1 = None → r.1 = None)) ∧
  heap r.2 = heap w.
Proof.
  cbv zeta. unfold DeleteMCPServer, bind, Deployments_Delete, Services_Delete.
  destruct (deployments_delete clientset namespace name (kube w))
    as [[e|] k1]; simpl.
  - split; [|split; [discriminate|reflexivity]].
    intros e' [= <-]. split; [reflexivity|]. split; [reflexivity|].
    split; [|reflexivity]. by rewrite filter_app, app_nil_r.
  - split; [discriminate|]. split; [|by destruct (services_delete _ _ _ _) as [[?|] ?]].
    intros _.
    destruct (services_delete clientset namespace name k1) as [[e|] k2]; simpl;
      rewrite <- app_assoc; repeat split; try done; by intros ? [= <-].
Qed.

End Deletion.


(** ** The status projector *)

Section Projector.
Context {K : Type} (clientset : Clientset K).

Lemma append_Conditions_foldl (conds : list DeploymentCondition.t) :
  ∀ st,
    foldl (λ st condition,
             MCPServerStatus.append_Conditions st (conditionLine condition))
      st conds =
    {| MCPServerStatus.Name := MCPServerStatus.Name st;
       MCPServerStatus.Namespace := MCPServerStatus.Namespace st;
       MCPServerStatus.Image := MCPServerStatus.Image st;
       MCPServerStatus.Available := MCPServerStatus.Available st;
       MCPServerStatus.Endpoint := MCPServerStatus.Endpoint st;
       MCPServerStatus.Labels := MCPServerStatus.Labels st;
       MCPServerStatus.Annotations := MCPServerStatus.Annotations st;
       MCPServerStatus.Conditions :=
         MCPServerStatus.Conditions st ++ map conditionLine conds |}.
Proof.
  induction conds as [|c conds IH]; intros st; simpl.
  - rewrite app_nil_r. by destruct st.
  - rewrite IH; simpl. by rewrite <- app_assoc.
Qed.

Lemma projectStatus_run (namespace : string) (d : Deployment.t) (w : World K) :
  projectStatus clientset namespace d w =
  ({| MCPServerStatus.Name := nameOf d;
      MCPServerStatus.Namespace := ObjectMeta.Namespace (Deployment.ObjectMeta d);
      MCPServerStatus.Image :=
        match containersOf d with
        | container0 :: _ => Container.Image container0
        | [] => ""
        end;
      MCPServerStatus.Available := available d;
      MCPServerStatus.Endpoint := (lookupStep clientset namespace d w).1;
      MCPServerStatus.Labels := ObjectMeta.Labels (Deployment.ObjectMeta d);
      MCPServerStatus.Annotations := ObjectMeta.Annotations (Deployment.ObjectMeta d);
      MCPServerStatus.Conditions :=
        map conditionLine (DeploymentStatus.Conditions (Deployment.Status d)) |},
   (lookupStep clientset namespace d w).2).
Proof.
  unfold projectStatus, lookupStep, bind, containersOf, nameOf.
  fold (available d).
  destruct (PodSpec.Containers _) as [|container0 ?]; simpl;
    (destruct (available d); simpl;
     [ unfold Services_Get, bind, log;
       destruct (services_get clientset _ _ _ _) as [[[service|e] h] k]; simpl;
       [ destruct (ServiceSpec.Ports (Service.Spec service)) as [|port0 ?]; simpl |]
     | ]);
    unfold ret; by rewrite append_Conditions_foldl.
Qed.

Lemma projectAll_run (namespace : string) (items : list Deployment.t) :
  ∀ servers w,
    ∃ sts,
      (projectAll clientset namespace items servers w).1 = servers ++ sts ∧
      Forall2 (λ d st, ∃ wi, st = (projectStatus clientset namespace d wi).1)
        items sts ∧
      calls (projectAll clientset namespace items servers w).2 =
        calls w ++
        map (λ d, ServicesGet namespace (nameOf d))
          (filter (λ d, available d = true) items).
Proof.
  induction items as [|d items IH]; intros servers w; simpl.
  - exists []. rewrite !app_nil_r. by repeat split.
  - unfold bind.
    destruct (projectStatus clientset namespace d w) as [st w1] eqn:Hst.
    destruct (IH (servers ++ [st]) w1) as (sts & Hout & Hall & Hcalls).
    exists (st :: sts). split; [by rewrite Hout, <- app_assoc|].
    split.
    + constructor; [|done]. exists w. by rewrite Hst.
    + rewrite Hcalls. rewrite projectStatus_run in Hst.
      injection Hst as _ Hw1. subst w1. unfold lookupStep.
      rewrite filter_cons.
      destruct (decide (available d = true)) as [Hav|Hav].
      * rewrite Hav.
        destruct (services_get clientset _ _ _ _) as [[r h] k]; simpl.
        by rewrite <- app_assoc.
      * apply not_true_is_false in Hav. by rewrite Hav.
Qed.

Lemma ListMCPServers_run (namespace : string) (w : World K) :
  ListMCPServers clientset namespace w =
  let '(r, h, k) :=
    deployments_list clientset namespace listOptions (heap w) (kube w) in
  let w1 := {| heap := h; kube := k;
               calls := calls w ++ [DeploymentsList namespace listOptions] |} in
  match r with
  | inl items =>
      ((projectAll clientset namespace items [] w1).1, None,
       (projectAll clientset namespace items [] w1).2)
  | inr e => ([], Some (Errorf_w "failed to list deployments: " e), w1)
  end.
Proof.
  unfold ListMCPServers, bind, Deployments_List, log.
  change (MCPServerLabel +:+ "=true") with (ListOptions.LabelSelector listOptions).
  change {| ListOptions.LabelSelector := ListOptions.LabelSelector listOptions |}
    with listOptions.
  destruct (deployments_list clientset namespace listOptions (heap w) (kube w))
    as [[[items|e] h] k]; simpl; [|done].
  by destruct (projectAll clientset namespace items [] _).
Qed.


Lemma available_true (d : Deployment.t) :
  available d = true ↔ DeploymentStatus.AvailableReplicas (Deployment.Status d) > 0.
Proof. unfold available. apply bool_decide_eq_true. Qed.

Lemma available_false (d : Deployment.t) :
  DeploymentStatus.AvailableReplicas (Deployment.Status d) ≤ 0 → available d = false.
Proof. intros Hle. unfold available. apply bool_decide_eq_false. lia. Qed.

(** What [ListMCPServers] returns on a successful listing: one status per
    item, each the projection of its item in some intermediate world. *)
Lemma ListMCPServers_items (namespace : string) (w : World K) items h k :
  deployments_list clientset namespace listOptions (heap w) (kube w) =
    (inl items, h, k) →
  (ListMCPServers clientset namespace w).1.2 = None ∧
  Forall2 (λ d st, ∃ wi, st = (projectStatus clientset namespace d wi).1)
    items (ListMCPServers clientset namespace w).1.1 ∧
  calls (ListMCPServers clientset namespace w).2 =
    calls w ++ DeploymentsList namespace listOptions ::
    map (λ d, ServicesGet namespace (nameOf d))
      (filter (λ d, available d = true) items).
Proof.
  intros Hlist. rewrite ListMCPServers_run, Hlist; simpl.
  split; [done|].
  edestruct (projectAll_run namespace items []) as (sts & Hout & Hall & Hcalls).
  rewrite Hout, Hcalls; simpl. split; [done|]. by rewrite <- app_assoc.
Qed.

(** Claim C5.  In the projection of one workload, [Available] holds
    exactly when the observed [AvailableReplicas] is above zero; when it is
    not, the world is left as it was (no lookup is made) and [Endpoint] is
    empty, whatever the cluster holds.  For a whole listing, the service
    lookups in the call log are exactly those of the available items, in
    order. *)
Theorem unavailable_workloads_are_not_looked_up (namespace : string) (w : World K) :
  (∀ d wi,
     let r := projectStatus clientset namespace d wi in
     (MCPServerStatus.Available r.1 = true ↔
      DeploymentStatus.AvailableReplicas (Deployment.Status d) > 0) ∧
     (DeploymentStatus.AvailableReplicas (Deployment.Status d) ≤ 0 →
      MCPServerStatus.Available r.1 = false ∧
      MCPServerStatus.Endpoint r.1 = "" ∧
      r.2 = wi)) ∧
  (∀ items h k,
     deployments_list clientset namespace listOptions (heap w) (kube w) =
       (inl items, h, k) →
     let r := ListMCPServers clientset namespace w in
     Forall2
       (λ d st,
          (MCPServerStatus.Available st = true ↔
           DeploymentStatus.AvailableReplicas (Deployment.Status d) > 0) ∧
          (DeploymentStatus.AvailableReplicas (Deployment.Status d) ≤ 0 →
           MCPServerStatus.Endpoint st = ""))
       items r.1.1 ∧
     calls r.2 =
       calls w ++ DeploymentsList namespace listOptions ::
       map (λ d, ServicesGet namespace (nameOf d))
         (filter (λ d, DeploymentStatus.AvailableReplicas (Deployment.Status d) > 0)
            items)).
Proof.
  assert (∀ d wi,
     let r := projectStatus clientset namespace d wi in
     (MCPServerStatus.Available r.1 = true ↔
      DeploymentStatus.AvailableReplicas (Deployment.Status d) > 0) ∧
     (DeploymentStatus.AvailableReplicas (Deployment.Status d) ≤ 0 →
      MCPServerStatus.Available r.1 = false ∧
      MCPServerStatus.Endpoint r.1 = "" ∧
      r.2 = wi)) as Hitem.
  { intros d wi. cbv zeta. rewrite projectStatus_run; simpl.
    split; [apply available_true|].
    intros Hle. unfold lookupStep. by rewrite (available_false d Hle). }
  split; [exact Hitem|].
  intros items h k Hlist. cbv zeta.
  destruct (ListMCPServers_items namespace w items h k Hlist) as (_ & Hall & Hcalls).
  split.
  - eapply Forall2_impl; [exact Hall|]. intros d st [wi ->].
    destruct (Hitem d wi) as [Hav Hzero]. split; [exact Hav|].
    intros Hle. by destruct (Hzero Hle) as (_ & ? & _).
  - rewrite Hcalls. do 3 f_equal. apply list_filter_iff. intros d.
    apply available_true.
Qed.

Lemma lookupStep_world (namespace : string) (d : Deployment.t) (w : World K) :
  (lookupStep clientset namespace d w).2 =
  if available d
  then (Services_Get clientset namespace (nameOf d) w).2
  else w.
Proof.
  unfold lookupStep, Services_Get, log. destruct (available d); [|done].
  by destruct (services_get clientset _ _ _ _) as [[r h] k].
Qed.

(** The statuses of a listing, item by item: each is the projection of
    its item in the world the loop has reached by then. *)
Lemma projectAll_worlds (namespace : string) (items : list Deployment.t) :
  ∀ servers w,
    (projectAll clientset namespace items servers w).1 =
    servers ++
    zip_with (λ d wi, (projectStatus clientset namespace d wi).1)
      items (lookupWorlds clientset namespace items w).
Proof.
  induction items as [|d items IH]; intros servers w; simpl.
  - by rewrite app_nil_r.
  - unfold bind.
    destruct (projectStatus clientset namespace d w) as [st w1] eqn:Hst.
    rewrite IH, <- app_assoc; simpl.
    rewrite projectStatus_run in Hst. injection Hst as Hst Hw1.
    rewrite <- lookupStep_world, Hw1. by do 2 f_equal.
Qed.

(** Claim C6.  For an available workload the lookup of the service of the
    same name decides [Endpoint]: [<service name>:<first port>] when the
    lookup succeeds and the service has a port, empty when it has none or
    the lookup fails.  [ListMCPServers] itself returns an error exactly
    when listing the deployments fails, and then no result; otherwise it
    returns no error and one status per item, and the status at the place
    of an available item carries the endpoint that the lookup decides in
    the world the loop has reached at that item: a failed lookup leaves
    the endpoint empty and fails nothing. *)
Theorem endpoint_enrichment_is_best_effort (namespace : string) (w : World K) :
  (∀ d wi,
     DeploymentStatus.AvailableReplicas (Deployment.Status d) > 0 →
     let r := projectStatus clientset namespace d wi in
     match (services_get clientset namespace
              (ObjectMeta.Name (Deployment.ObjectMeta d)) (heap wi) (kube wi)).1.1 with
     | inl service =>
         match ServiceSpec.Ports (Service.Spec service) with
         | port0 :: _ =>
             MCPServerStatus.Endpoint r.1 =
               ObjectMeta.Name (Service.ObjectMeta service) +:+ ":" +:+
               pretty (ServicePort.Port port0)
         | [] => MCPServerStatus.Endpoint r.1 = ""
         end
     | inr _ => MCPServerStatus.Endpoint r.1 = ""
     end) ∧
  (let r := ListMCPServers clientset namespace w in
   let listed :=
     deployments_list clientset namespace listOptions (heap w) (kube w) in
   match listed.1.1 with
   | inl items =>
       r.1.2 = None ∧ length r.1.1 = length items ∧
       let w1 := {| heap := listed.1.2; kube := listed.2;
                    calls := calls w ++ [DeploymentsList namespace listOptions] |} in
       ∀ (i : nat) d wi,
         items !! i = Some d →
         lookupWorlds clientset namespace items w1 !! i = Some wi →
         DeploymentStatus.AvailableReplicas (Deployment.Status d) > 0 →
         ∃ st,
           r.1.1 !! i = Some st ∧
           match (services_get clientset namespace
                    (ObjectMeta.Name (Deployment.ObjectMeta d))
                    (heap wi) (kube wi)).1.1 with
           | inl service =>
               match ServiceSpec.Ports (Service.Spec service) with
               | port0 :: _ =>
                   MCPServerStatus.Endpoint st =
                     ObjectMeta.Name (Service.ObjectMeta service) +:+ ":" +:+
                     pretty (ServicePort.Port port0)
               | [] => MCPServerStatus.Endpoint st = ""
               end
           | inr _ => MCPServerStatus.Endpoint st = ""
           end
   | inr e => r.1 = ([], Some (Errorf_w "failed to list deployments: " e))
   end).
Proof.
  assert (∀ d wi,
     DeploymentStatus.AvailableReplicas (Deployment.Status d) > 0 →
     let r := projectStatus clientset namespace d wi in
     match (services_get clientset namespace
              (ObjectMeta.Name (Deployment.ObjectMeta d)) (heap wi) (kube wi)).1.1 with
     | inl service =>
         match ServiceSpec.Ports (Service.Spec service) with
         | port0 :: _ =>
             MCPServerStatus.Endpoint r.1 =
               ObjectMeta.Name (Service.ObjectMeta service) +:+ ":" +:+
               pretty (ServicePort.Port port0)
         | [] => MCPServerStatus.Endpoint r.1 = ""
         end
     | inr _ => MCPServerStatus.Endpoint r.1 = ""
     end) as Hitem.
  { intros d wi Hav%available_true. cbv zeta.
    rewrite projectStatus_run; simpl. unfold lookupStep, nameOf. rewrite Hav.
    destruct (services_get clientset _ _ _ _) as [[[service|e] h] k]; simpl; [|done].
    by destruct (ServiceSpec.Ports (Service.Spec service)). }
  split; [exact Hitem|].
  cbv zeta.
  destruct (deployments_list clientset namespace listOptions (heap w) (kube w))
    as [[[items|e] h] k] eqn:Hlist; cbn [fst snd].
  - destruct (ListMCPServers_items namespace w items h k Hlist) as (Herr & Hall & _).
    split; [exact Herr|]. split; [symmetry; by eapply Forall2_length|].
    intros i d wi Hd Hwi Hav.
    rewrite ListMCPServers_run, Hlist. cbn [fst snd].
    rewrite projectAll_worlds. cbn [app].
    exists (projectStatus clientset namespace d wi).1.
    split; [|by apply Hitem].
    rewrite lookup_zip_with, Hd. cbn [mbind option_bind]. by rewrite Hwi.
  - by rewrite ListMCPServers_run, Hlist.
Qed.

(** Claim C8.  On a successful listing every status copies name,
    namespace, label map and annotation map of its workload; [Image] is the
    image of the first container, or empty when there is none, without an
    error; [Conditions] holds one line [<type>: <status> - <message>] per
    condition, in the order reported. *)
Theorem status_copies_workload_fields (namespace : string) (w : World K) items h k :
  deployments_list clientset namespace listOptions (heap w) (kube w) =
    (inl items, h, k) →
  (ListMCPServers clientset namespace w).1.2 = None ∧
  Forall2
    (λ d st,
       MCPServerStatus.Name st = ObjectMeta.Name (Deployment.ObjectMeta d) ∧
       MCPServerStatus.Namespace st = ObjectMeta.Namespace (Deployment.ObjectMeta d) ∧
       MCPServerStatus.Labels st = ObjectMeta.Labels (Deployment.ObjectMeta d) ∧
       MCPServerStatus.Annotations st =
         ObjectMeta.Annotations (Deployment.ObjectMeta d) ∧
       MCPServerStatus.Image st =
         match containersOf d with
         | container0 :: _ => Container.Image container0
         | [] => ""
         end ∧
       MCPServerStatus.Conditions st =
         map (λ condition,
                DeploymentCondition.Type_ condition +:+ ": " +:+
                DeploymentCondition.Status condition +:+ " - " +:+
                DeploymentCondition.Message condition)
           (DeploymentStatus.Conditions (Deployment.Status d)))
    items (ListMCPServers clientset namespace w).1.1.
Proof.
  intros Hlist.
  destruct (ListMCPServers_items namespace w items h k Hlist) as (Herr & Hall & _).
  split; [exact Herr|].
  eapply Forall2_impl; [exact Hall|]. intros d st [wi ->].
  rewrite projectStatus_run; simpl. by repeat split.
Qed.

End Projector.


(** ** Runs on the in-memory cluster *)

Lemma unset_port_not_defaulted :
  MCPServerSpec.Port Sample.specPortUnset = 0 ∧
  let log := calls (DeployMCPServer Fake.client Sample.specPortUnset Sample.start).2 in
  flat_map containerPortsOf (createdDeployments log) = [0] ∧
  flat_map servicePortsOf (createdServices log) = [(0, IntVal 0)] ∧
  ¬ (flat_map containerPortsOf (createdDeployments log) = [8080] ∧
     flat_map servicePortsOf (createdServices log) = [(8080, IntVal 8080)]).
Proof.
  split; [reflexivity|]. cbv zeta.
  assert (flat_map containerPortsOf
            (createdDeployments
               (calls (DeployMCPServer Fake.client Sample.specPortUnset
                         Sample.start).2)) = [0]) as -> by (vm_compute; reflexivity).
  assert (flat_map servicePortsOf
            (createdServices
               (calls (DeployMCPServer Fake.client Sample.specPortUnset
                         Sample.start).2)) = [(0, IntVal 0)]) as ->
    by (vm_compute; reflexivity).
  split; [reflexivity|]. split; [reflexivity|].
  intros [Hc _]. discriminate Hc.
Qed.

Lemma DeleteMCPServer_sequencing_witness :
  (* workload deletion fails in the empty cluster: one call, no service deletion *)
  (DeleteMCPServer Fake.client "ns1" "svc-a" Sample.start).1 =
    Some (Errorf_w "failed to delete deployment: " Fake.notFound) ∧
  calls (DeleteMCPServer Fake.client "ns1" "svc-a" Sample.start).2 =
    [DeploymentsDelete "ns1" "svc-a"] ∧
  (* network deletion fails after the workload was removed *)
  Fake.deployments (kube Sample.orphaned) = [Sample.workload "svc-a" 1] ∧
  (DeleteMCPServer Fake.client "ns1" "svc-a" Sample.orphaned).1 =
    Some (Errorf_w "failed to delete service: " Fake.notFound) ∧
  Fake.deployments (kube (DeleteMCPServer Fake.client "ns1" "svc-a" Sample.orphaned).2) = [] ∧
  calls (DeleteMCPServer Fake.client "ns1" "svc-a" Sample.orphaned).2 =
    [DeploymentsDelete "ns1" "svc-a"; ServicesDelete "ns1" "svc-a"].
Proof.
  destruct (DeleteMCPServer_sequencing Fake.client "ns1" "svc-a" Sample.start)
    as (Hfail & _ & _).
  destruct (Hfail Fake.notFound eq_refl) as (Hr & Hcalls & _ & _).
  destruct (DeleteMCPServer_sequencing Fake.client "ns1" "svc-a" Sample.orphaned)
    as (_ & Hok & _).
  destruct (Hok eq_refl) as (Hcalls' & Hkube & Hr' & _).
  split; [exact Hr|]. split; [exact Hcalls|]. split; [reflexivity|].
  split; [exact (Hr' Fake.notFound eq_refl)|].
  split; [by rewrite Hkube|exact Hcalls'].
Defined.

(** The conflicting value ["false"] of the caller is replaced. *)
Example conflicting_label_is_overwritten :
  entries Sample.userHeap (MCPServerSpec.Labels Sample.spec) !! MCPServerLabel =
    Some "false" ∧
  ∃ deployment,
    calls (createDeployment Fake.client Sample.spec Sample.start).2 =
      [DeploymentsCreate "ns1" deployment] ∧
    entries (heap (createDeployment Fake.client Sample.spec Sample.start).2)
      (ObjectMeta.Labels (Deployment.ObjectMeta deployment)) =
    {[ "app" := "mcp"; MCPServerLabel := "true" ]}.
Proof. split; [reflexivity|]. eexists. vm_compute. split; reflexivity. Qed.

Lemma secret_mounts_expand_by_position_witness :
  MCPServerSpec.SecretMounts Sample.spec !! 1%nat =
    Some {| SecretMount.SecretName := "sec1"; SecretMount.MountPath := "/b" |} ∧
  ∃ deployment container,
    calls (createDeployment Fake.client Sample.spec Sample.start).2 =
      [DeploymentsCreate "ns1" deployment] ∧
    containersOf deployment = [container] ∧
    length (volumesOf deployment) = 2%nat ∧
    volumesOf deployment !! 1%nat =
      Some {| Volume.Name := "secret-1";
              Volume.VolumeSource :=
                {| VolumeSource.Secret :=
                     Some {| SecretVolumeSource.SecretName := "sec1" |} |} |} ∧
    Container.VolumeMounts container !! 1%nat =
      Some {| VolumeMount.Name := "secret-1";
              VolumeMount.MountPath := "/b";
              VolumeMount.ReadOnly := true |}.
Proof.
  split; [reflexivity|].
  destruct (secret_mounts_expand_by_position Fake.client Sample.spec Sample.start)
    as (deployment & container & Hcalls & Hc & Hlen & _ & Hat).
  destruct (Hat 1%nat _ eq_refl) as [Hvolume Hmount].
  exists deployment, container.
  split; [exact Hcalls|]. split; [exact Hc|]. split; [exact Hlen|].
  split; [exact Hvolume|exact Hmount].
Defined.

Lemma service_selector_matches_deployment_labels_witness :
  let w := Sample.start in
  let w' := (createDeployment Fake.client Sample.spec w).2 in
  entries (heap w') (MCPServerSpec.Labels Sample.spec) =
    entries (heap w) (MCPServerSpec.Labels Sample.spec) ∧
  ∃ deployment service,
    calls (createService Fake.client Sample.spec w').2 =
      [DeploymentsCreate "ns1" deployment; ServicesCreate "ns1" service] ∧
    entries (heap (createService Fake.client Sample.spec w').2)
      (ServiceSpec.Selector (Service.Spec service)) =
    entries (heap w')
      (ObjectMeta.Labels (Deployment.ObjectMeta deployment)).
Proof.
  cbv zeta.
  assert (entries (heap (createDeployment Fake.client Sample.spec Sample.start).2)
            (MCPServerSpec.Labels Sample.spec) =
          entries (heap Sample.start) (MCPServerSpec.Labels Sample.spec)) as Hsame
    by (vm_compute; reflexivity).
  split; [exact Hsame|].
  destruct (service_selector_matches_deployment_labels Fake.client Sample.spec
              Sample.start (createDeployment Fake.client Sample.spec Sample.start).2
              Hsame)
    as (deployment & service & Hd & Hs & Hsel & _).
  exists deployment, service. split; [|exact Hsel].
  rewrite Hs, Hd. reflexivity.
Defined.

Lemma manifests_preserve_caller_maps_witness :
  allocated (heap Sample.start) (MCPServerSpec.Labels Sample.spec) = true ∧
  allocated (heap Sample.start) (MCPServerSpec.Annotations Sample.spec) = true ∧
  entries (heap (DeployMCPServer Fake.client Sample.spec Sample.start).2)
    (MCPServerSpec.Labels Sample.spec) =
  {[ "app" := "mcp"; MCPServerLabel := "false" ]}.
Proof.
  assert (allocated (heap Sample.start) (MCPServerSpec.Labels Sample.spec) = true)
    as Hlabels by reflexivity.
  assert (allocated (heap Sample.start) (MCPServerSpec.Annotations Sample.spec) = true)
    as Hannotations by reflexivity.
  do 2 (split; [reflexivity|]).
  destruct (manifests_preserve_caller_maps Fake.client Sample.spec Sample.start
              Hlabels Hannotations) as [_ Hall].
  apply Forall_cons_1 in Hall as [_ Hall].
  apply Forall_cons_1 in Hall as [_ Hall].
  apply Forall_cons_1 in Hall as [(_ & Hsame & _) _].
  rewrite Hsame. reflexivity.
Defined.

Lemma unavailable_workloads_are_not_looked_up_witness :
  Fake.services (kube Sample.idle) = [Sample.network "svc-a"] ∧
  calls (ListMCPServers Fake.client "ns1" Sample.idle).2 =
    [DeploymentsList "ns1" listOptions] ∧
  ∃ st,
    (ListMCPServers Fake.client "ns1" Sample.idle).1.1 = [st] ∧
    (MCPServerStatus.Available st = true ↔ 0 > 0) ∧
    MCPServerStatus.Endpoint st = "".
Proof.
  split; [reflexivity|].
  destruct (unavailable_workloads_are_not_looked_up Fake.client "ns1" Sample.idle)
    as [_ Hlist].
  destruct (Hlist [Sample.workload "svc-a" 0] Sample.identified (kube Sample.idle)
              eq_refl) as [Hall Hcalls].
  split; [exact Hcalls|].
  apply Forall2_cons_inv_l in Hall as (st & sts & [Hav Hend] & Hnil & Hsts).
  apply Forall2_nil_inv_l in Hnil. subst sts.
  exists st. split; [exact Hsts|]. split; [exact Hav|].
  apply Hend. simpl. lia.
Defined.

Lemma endpoint_enrichment_is_best_effort_witness :
  DeploymentStatus.AvailableReplicas
    (Deployment.Status (Sample.workload "svc-a" 1)) > 0 ∧
  MCPServerStatus.Endpoint
    (projectStatus Fake.client "ns1" (Sample.workload "svc-a" 1) Sample.serving).1 =
    "svc-a:9000" ∧
  MCPServerStatus.Endpoint
    (projectStatus Fake.client "ns1" (Sample.workload "svc-a" 1) Sample.orphaned).1 =
    "" ∧
  (ListMCPServers Fake.client "ns1" Sample.orphaned).1.2 = None ∧
  (∃ st,
     (ListMCPServers Fake.client "ns1" Sample.serving).1.1 !! 0%nat = Some st ∧
     MCPServerStatus.Endpoint st = "svc-a:9000") ∧
  (∃ st,
     (ListMCPServers Fake.client "ns1" Sample.orphaned).1.1 !! 0%nat = Some st ∧
     MCPServerStatus.Endpoint st = "").
Proof.
  assert (DeploymentStatus.AvailableReplicas
            (Deployment.Status (Sample.workload "svc-a" 1)) > 0) as Hav
    by (simpl; lia).
  split; [exact Hav|].
  destruct (endpoint_enrichment_is_best_effort Fake.client "ns1" Sample.serving)
    as [Hserving Hlisted].
  destruct (endpoint_enrichment_is_best_effort Fake.client "ns1" Sample.orphaned)
    as [Horphaned Hlist].
  split; [exact (Hserving (Sample.workload "svc-a" 1) Sample.serving Hav)|].
  split; [exact (Horphaned (Sample.workload "svc-a" 1) Sample.orphaned Hav)|].
  split; [exact (proj1 Hlist)|].
  split.
  - destruct Hlisted as (_ & _ & Hitems).
    destruct (Hitems 0%nat (Sample.workload "svc-a" 1)
                {| heap := Sample.identified; kube := kube Sample.serving;
                   calls := [DeploymentsList "ns1" listOptions] |}
                eq_refl eq_refl Hav) as (st & Hst & Hend).
    exists st. split; [exact Hst|exact Hend].
  - destruct Hlist as (_ & _ & Hitems).
    destruct (Hitems 0%nat (Sample.workload "svc-a" 1)
                {| heap := Sample.identified; kube := kube Sample.orphaned;
                   calls := [DeploymentsList "ns1" listOptions] |}
                eq_refl eq_refl Hav) as (st & Hst & Hend).
    exists st. split; [exact Hst|exact Hend].
Defined.

Lemma status_copies_workload_fields_witness :
  deployments_list Fake.client "ns1" listOptions (heap Sample.serving)
    (kube Sample.serving) =
    (inl [Sample.workload "svc-a" 1], Sample.identified, kube Sample.serving) ∧
  ∃ st,
    (ListMCPServers Fake.client "ns1" Sample.serving).1 = ([st], None) ∧
    MCPServerStatus.Name st = "svc-a" ∧
    MCPServerStatus.Labels st = Some 1%positive ∧
    MCPServerStatus.Image st = "" ∧
    MCPServerStatus.Conditions st =
      ["Available: True - ok"; "Progressing: False - "].
Proof.
  split; [reflexivity|].
  destruct (status_copies_workload_fields Fake.client "ns1" Sample.serving
              [Sample.workload "svc-a" 1] Sample.identified (kube Sample.serving)
              eq_refl) as [Herr Hall].
  apply Forall2_cons_inv_l in Hall
    as (st & sts & (Hname & _ & Hlabels & _ & Himage & Hconds) & Hnil & Hsts).
  apply Forall2_nil_inv_l in Hnil. subst sts.
  exists st. split.
  - destruct (ListMCPServers Fake.client "ns1" Sample.serving) as [[servers err] w'].
    simpl in *. by subst.
  - by repeat split.
Defined.

(** Two mounts of the same secret stay two volumes. *)
Example equal_secret_names_are_kept :
  ∃ deployment,
    calls (createDeployment Fake.client Sample.spec Sample.start).2 =
      [DeploymentsCreate "ns1" deployment] ∧
    map Volume.Name (volumesOf deployment) = ["secret-0"; "secret-1"] ∧
    map Volume.VolumeSource (volumesOf deployment) =
      [ {| VolumeSource.Secret :=
             Some {| SecretVolumeSource.SecretName := "sec1" |} |};
        {| VolumeSource.Secret :=
             Some {| SecretVolumeSource.SecretName := "sec1" |} |} ].
Proof. eexists. vm_compute. repeat split. Qed.

(** An available workload named [svc-a] whose service exposes port 9000. *)
Example listing_of_a_serving_workload :
  (ListMCPServers Fake.client "ns1" Sample.serving).1 =
  ([ {| MCPServerStatus.Name := "svc-a";
        MCPServerStatus.Namespace := "ns1";
        MCPServerStatus.Image := "";
        MCPServerStatus.Available := true;
        MCPServerStatus.Endpoint := "svc-a:9000";
        MCPServerStatus.Labels := Some 1%positive;
        MCPServerStatus.Annotations := None;
        MCPServerStatus.Conditions :=
          ["Available: True - ok"; "Progressing: False - "] |} ], None).
Proof. vm_compute. reflexivity. Qed.

(** What the port prompt makes of some answers. *)
Example port_prompt_answers :
  let enter := String (Wizard.byte 10) EmptyString in
  Wizard.deployServer_Port enter = Some 8080 ∧
  Wizard.deployServer_Port (" 9090" +:+ enter) = Some 9090 ∧
  Wizard.deployServer_Port ("2147483648" +:+ enter) = None ∧
  Wizard.deployServer_Port ("http" +:+ enter) = None.
Proof. vm_compute. repeat split. Qed.

(** * Further results *)

Import Cli.

(** ** More on the deployer *)

Section DeployerMore.
Context {K : Type} (clientset : Clientset K).

Local Open Scope go_scope.

(** Extra X1.  [DeployMCPServer] creates the deployment first.  If that
    fails, the error comes back under the context ["failed to create
    deployment: "] twice (once from [createDeployment], once from
    [DeployMCPServer]), the service-create primitive is not invoked and
    the cluster is as the failed creation left it.  If it succeeds, the
    service is created next; when that fails the error comes back under
    ["failed to create service: "] twice while the cluster keeps the
    deployment: the call log holds the two creations and nothing else. *)
Theorem DeployMCPServer_sequencing (spec : MCPServerSpec.t) (w : World K) :
  let namespace := MCPServerSpec.Namespace spec in
  let w1 := (createDeployment clientset spec w).2 in
  let w2 := (createService clientset spec w1).2 in
  let deployment := deploymentOf spec (heap w) in
  let service := serviceOf spec (heap w1) in
  let first := deployments_create clientset namespace deployment (heap w1) (kube w) in
  let second := services_create clientset namespace service (heap w2) first.2 in
  let r := DeployMCPServer clientset spec w in
  (∀ e, first.1 = Some e →
     r.1 = Some (Errorf_w "failed to create deployment: "
                   (Errorf_w "failed to create deployment: " e)) ∧
     calls r.2 = calls w ++ [DeploymentsCreate namespace deployment] ∧
     kube r.2 = first.2) ∧
  (first.1 = None →
     calls r.2 = calls w ++ [DeploymentsCreate namespace deployment;
                             ServicesCreate namespace service] ∧
     kube r.2 = second.2 ∧
     (∀ e, second.1 = Some e →
        r.1 = Some (Errorf_w "failed to create service: "
                      (Errorf_w "failed to create service: " e))) ∧
     (second.1 = None → r.1 = None)).
Proof.
  cbv zeta. rewrite DeployMCPServer_run. cbv zeta.
  rewrite createService_run. rewrite createDeployment_run.
  cbn [fst snd heap kube calls]. unfold deploymentOf, serviceOf.
  destruct (deployments_create clientset _ _ _ (kube w)) as [[e|] k1];
    cbn [fst snd wrapped heap kube calls].
  - split; [|discriminate]. by intros ? [= <-].
  - split; [discriminate|intros _].
    rewrite <- app_assoc. split; [done|]. split; [done|].
    destruct (services_create clientset _ _ _ k1) as [[e|] k2];
      cbn [fst snd wrapped]; split; try done. by intros ? [= <-].
Qed.

(** Extra X2.  Go leaves the order in which [range] visits a map
    unspecified.  Whatever order the entries of the caller's labels are
    copied in, the function's body yields the result and the world of
    [mergeLabels]. *)
Theorem mergeLabels_any_order
    (userLabels : GoMap) (kvs : list (string * string)) (w : World K) :
  kvs ≡ₚ map_to_list (entries (heap w) userLabels) →
  (labels <- make_map ;;
   for_each kvs (λ kv, map_assign labels kv.1 kv.2) ;;;
   map_assign labels MCPServerLabel "true" ;;;
   ret (Some labels)) w =
  mergeLabels userLabels w.
Proof.
  intros Hp. rewrite mergeLabels_run. destruct w as [h k c].
  unfold bind, make_map, ret; simpl. rewrite for_each_assign; simpl.
  unfold map_assign; simpl. f_equal. f_equal.
  rewrite alter_alter_eq, alter_insert_eq; simpl.
  by rewrite (assignAll_entries kvs (entries h userLabels)).
Qed.

(** Extra X3.  [mergeLabels] never returns the nil map.  Merging its own
    result again makes a second map, different from the first, with the
    same entries, and leaves the first as it was.  The keys of the result
    are the caller's keys and the identifying key; when the caller's
    labels are nil or empty the result is the identifying label alone. *)
Theorem mergeLabels_idempotent (userLabels : GoMap) (w : World K) :
  let first := mergeLabels userLabels w in
  let second := mergeLabels first.1 first.2 in
  first.1 ≠ None ∧
  second.1 ≠ first.1 ∧
  entries (heap second.2) second.1 = entries (heap first.2) first.1 ∧
  entries (heap second.2) first.1 = entries (heap first.2) first.1 ∧
  dom (entries (heap first.2) first.1) =
    {[MCPServerLabel]} ∪ dom (entries (heap w) userLabels) ∧
  (entries (heap w) userLabels = ∅ →
   entries (heap first.2) first.1 = {[MCPServerLabel := "true"]}).
Proof.
  cbv zeta. rewrite !mergeLabels_run. cbn [fst snd heap].
  set (l1 := fresh (dom (heap w))).
  set (m1 := <[MCPServerLabel := "true"]> (entries (heap w) userLabels)).
  set (h1 := <[l1 := m1]> (heap w)).
  assert (entries h1 (Some l1) = m1) as Hm1.
  { unfold h1; simpl. by rewrite lookup_insert_eq. }
  assert (fresh (dom h1) ≠ l1) as Hne.
  { intros Heq. apply (is_fresh (dom h1)). rewrite Heq. unfold h1.
    rewrite dom_insert_L. set_solver. }
  split; [done|]. split; [by intros [= ?]|].
  rewrite Hm1. split.
  { simpl. rewrite lookup_insert_eq; simpl. unfold m1. by rewrite insert_insert_eq. }
  split.
  { simpl. rewrite lookup_insert_ne by done. unfold h1.
    by rewrite lookup_insert_eq. }
  split.
  { unfold m1. by rewrite dom_insert_L. }
  intros Hempty. unfold m1. by rewrite Hempty.
Qed.

(** The calls of a listing, in closed form. *)
Lemma ListMCPServers_calls (namespace : string) (w : World K) :
  ∃ items,
    calls (ListMCPServers clientset namespace w).2 =
      calls w ++ DeploymentsList namespace listOptions ::
      map (λ d, ServicesGet namespace (nameOf d))
        (filter (λ d, available d = true) items) ∧
    match (deployments_list clientset namespace listOptions (heap w) (kube w)).1.1 with
    | inl listed => items = listed
    | inr _ => items = []
    end.
Proof.
  destruct (deployments_list clientset namespace listOptions (heap w) (kube w))
    as [[[items|e] h] k] eqn:Hlist.
  - exists items. split; [|done].
    by destruct (ListMCPServers_items clientset namespace w items h k Hlist) as (_ & _ & ?).
  - exists []. split; [|done]. rewrite ListMCPServers_run, Hlist. done.
Qed.

End DeployerMore.

(** ** The port prompt reads back what [%d] prints *)

Lemma digit_pretty_N_char (d : N) :
  (d < 10)%N → Wizard.digit (pretty_N_char d) = Some (Z.of_N d).
Proof.
  intros Hd.
  assert (d = 0 ∨ d = 1 ∨ d = 2 ∨ d = 3 ∨ d = 4 ∨ d = 5 ∨ d = 6 ∨ d = 7 ∨
          d = 8 ∨ d = 9)%N as Hcases by lia.
  repeat (destruct Hcases as [->|Hcases]; [reflexivity|]). by subst.
Qed.

Lemma digits_pretty_N_go (x : N) :
  ∀ s, ∃ k, 0 ≤ k ∧ ∀ acc,
    Wizard.digits (String.list_ascii_of_string (pretty_N_go x s)) acc =
    Wizard.digits (String.list_ascii_of_string s) (acc * 10 ^ k + Z.of_N x).
Proof.
  induction (N.lt_wf_0 x) as [x _ IH]; intros s.
  destruct (decide (x = 0)%N) as [->|Hx].
  - exists 0. split; [done|]. intros acc. rewrite pretty_N_go_0. f_equal. lia.
  - rewrite pretty_N_go_step by lia.
    destruct (IH (x `div` 10)%N) with (s := String (pretty_N_char (x `mod` 10)) s)
      as (k & Hk & Hgo).
    { apply N.div_lt; lia. }
    exists (k + 1). split; [lia|]. intros acc. rewrite Hgo. simpl.
    rewrite digit_pretty_N_char by (apply N.mod_lt; lia). f_equal.
    rewrite Z.pow_add_r by lia.
    pose proof (N.div_mod x 10 ltac:(lia)) as Hdm.
    assert (Z.of_N x = 10 * Z.of_N (x `div` 10) + Z.of_N (x `mod` 10)) as ->
      by (rewrite Hdm at 1; lia).
    change (10 ^ 1) with 10. ring.
Qed.

Lemma head_pretty_N_go (x : N) :
  ∀ s, (0 < x)%N →
    ∃ c rest, pretty_N_go x s = String c rest ∧ is_Some (Wizard.digit c).
Proof.
  induction (N.lt_wf_0 x) as [x _ IH]; intros s Hx.
  rewrite pretty_N_go_step by done.
  destruct (decide (x `div` 10 = 0)%N) as [->|Hdiv].
  - rewrite pretty_N_go_0. eexists _, _. split; [done|].
    rewrite digit_pretty_N_char by (apply N.mod_lt; lia). done.
  - apply IH.
    + apply N.div_lt; [done|]. reflexivity.
    + by apply N.neq_0_lt_0.
Qed.

Lemma ParseInt_unsigned (c : ascii) (rest : string) (bitSize : Z) :
  c ≠ "+"%char → c ≠ "-"%char →
  Wizard.ParseInt (String c rest) bitSize =
  match Wizard.digits (c :: String.list_ascii_of_string rest) 0 with
  | Some un => if bool_decide (2 ^ (bitSize - 1) ≤ un) then None else Some un
  | None => None
  end.
Proof.
  intros Hplus Hminus. unfold Wizard.ParseInt.
  cbn [String.list_ascii_of_string].
  rewrite (decide_False (P := c = "+"%char)) by done.
  rewrite (decide_False (P := c = "-"%char)) by done.
  cbn [negb andb]. reflexivity.
Qed.

Lemma ParseInt_negative (c : ascii) (rest : string) (bitSize : Z) :
  Wizard.ParseInt (String "-" (String c rest)) bitSize =
  match Wizard.digits (c :: String.list_ascii_of_string rest) 0 with
  | Some un => if bool_decide (2 ^ (bitSize - 1) < un) then None else Some (- un)
  | None => None
  end.
Proof. reflexivity. Qed.

Lemma ParseInt_pretty_positive (p : positive) (bitSize : Z) :
  Wizard.ParseInt (pretty (Z.pos p)) bitSize =
    (if bool_decide (2 ^ (bitSize - 1) ≤ Z.pos p) then None else Some (Z.pos p)) ∧
  Wizard.ParseInt (pretty (Z.neg p)) bitSize =
    (if bool_decide (2 ^ (bitSize - 1) < Z.pos p) then None else Some (Z.neg p)) ∧
  pretty (Z.pos p) ≠ "" ∧ pretty (Z.neg p) ≠ "".
Proof.
  assert (pretty (Z.pos p) = pretty_N_go (N.pos p) "") as Hpos by done.
  assert (pretty (Z.neg p) = String "-" (pretty_N_go (N.pos p) "")) as Hneg by done.
  destruct (head_pretty_N_go (N.pos p) "") as (c & rest & Hhead & [d Hd]); [lia|].
  destruct (digits_pretty_N_go (N.pos p) "") as (k & Hk & Hdigits).
  specialize (Hdigits 0).
  rewrite Hhead, (Z.mul_0_l (10 ^ k)), Z.add_0_l in Hdigits.
  cbn [String.list_ascii_of_string Wizard.digits] in Hdigits.
  change (Wizard.digits (c :: String.list_ascii_of_string rest) 0 =
          Some (Z.of_N (N.pos p))) in Hdigits.
  assert (c ≠ "+"%char) as Hplus by (intros ->; discriminate Hd).
  assert (c ≠ "-"%char) as Hminus by (intros ->; discriminate Hd).
  rewrite Hpos, Hneg, Hhead.
  rewrite ParseInt_unsigned, ParseInt_negative by done. rewrite Hdigits.
  by repeat split.
Qed.

(** Extra X4.  When the answer to the port prompt, white space removed,
    is the decimal notation of an integer [z], the wizard takes [z] as the
    port if [z] fits [int32] and gives up otherwise.  No other range is
    checked: zero, negative numbers and numbers above 65535 are taken. *)
Theorem port_prompt_reads_decimal (line : string) (z : Z) :
  Wizard.TrimSpace line = pretty z →
  Wizard.deployServer_Port line =
    if bool_decide (- 2 ^ 31 ≤ z < 2 ^ 31) then Some z else None.
Proof.
  intros Hline. unfold Wizard.deployServer_Port. rewrite Hline.
  destruct z as [|p|p].
  - reflexivity.
  - destruct (ParseInt_pretty_positive p 32) as (Hparse & _ & Hne & _).
    rewrite decide_False by done. rewrite Hparse.
    change (32 - 1) with 31.
    repeat case_bool_decide; try lia; [done|].
    rewrite int32_wrap_id; [done|]. unfold int32. lia.
  - destruct (ParseInt_pretty_positive p 32) as (_ & Hparse & _ & Hne).
    rewrite decide_False by done. rewrite Hparse.
    change (32 - 1) with 31.
    repeat case_bool_decide; try lia; [done|].
    rewrite int32_wrap_id; [done|]. unfold int32. lia.
Qed.

(** ** The prompts of the wizard *)

Lemma ReadString_cons (line : string) (rest : Reader) :
  ReadString (line :: rest) = (line, rest).
Proof. reflexivity. Qed.

Lemma ReadString_nil : ReadString [] = ("", []).
Proof. reflexivity. Qed.

Lemma ReadString_length (reader : Reader) :
  (length (ReadString reader).2 ≤ length reader)%nat.
Proof. destruct reader; simpl; lia. Qed.

Lemma ReadString_drop (reader : Reader) (i : nat) :
  (ReadString (drop i reader)).2 = drop (S i) reader.
Proof.
  replace (S i) with (i + 1)%nat by lia. rewrite <- drop_drop.
  by destruct (drop i reader).
Qed.

Local Opaque ReadString.

Lemma assignAll_snoc kvs (kv : string * string) (m : gmap string string) :
  assignAll (kvs ++ [kv]) m = <[kv.1 := kv.2]> (assignAll kvs m).
Proof. unfold assignAll. by rewrite foldl_app. Qed.

Lemma assignAll_app kvs kvs' (m : gmap string string) :
  assignAll (kvs ++ kvs') m = assignAll kvs' (assignAll kvs m).
Proof. unfold assignAll. by rewrite foldl_app. Qed.

Lemma assignAll_last_wins kvs :
  assignAll kvs ∅ = list_to_map (reverse kvs).
Proof.
  induction kvs as [|kv kvs IH] using rev_ind; [done|].
  rewrite assignAll_snoc, reverse_app, IH. by destruct kv.
Qed.

Lemma assignAll_no_key kvs (m : gmap string string) (k : string) :
  Forall (λ kv, kv.1 ≠ k) kvs → assignAll kvs m !! k = m !! k.
Proof.
  revert m. induction kvs as [|kv kvs IH]; intros m Hall; [done|].
  apply Forall_cons in Hall as [Hkv Hall].
  change (assignAll (kv :: kvs) m) with (assignAll kvs (<[kv.1 := kv.2]> m)).
  rewrite IH by done. by rewrite lookup_insert_ne.
Qed.

Lemma TrimSpace_empty : Wizard.TrimSpace "" = "".
Proof. reflexivity. Qed.

(** The lines a collecting loop takes are those before the first blank
    one. *)
Lemma argsLoop_run (reader : Reader) :
  ∀ args,
    ∃ lines rest,
      reader = lines ++ rest ∧
      Forall (λ line, Wizard.TrimSpace line ≠ "") lines ∧
      Wizard.TrimSpace (ReadString rest).1 = "" ∧
      argsLoop reader args =
        (args ++ map Wizard.TrimSpace lines, (ReadString rest).2).
Proof.
  induction reader as [|line reader IH]; intros args.
  - exists [], []. rewrite ReadString_nil. simpl. by rewrite app_nil_r.
  - simpl. destruct (decide (Wizard.TrimSpace line = "")) as [Hblank|Hline].
    + exists [], (line :: reader). rewrite ReadString_cons. simpl.
      by rewrite app_nil_r.
    + destruct (IH (args ++ [Wizard.TrimSpace line])) as (lines & rest & -> & Hall & Hend & ->).
      exists (line :: lines), rest. simpl.
      split; [done|]. split; [by constructor|]. split; [done|].
      by rewrite <- app_assoc.
Qed.

Lemma promptForArgs_nonempty (reader : Reader) :
  Forall (λ arg, arg ≠ "") (promptForArgs reader).1.
Proof.
  unfold promptForArgs. destruct (declined (ReadString reader).1); [constructor|].
  destruct (argsLoop_run (ReadString reader).2 [])
    as (lines & rest & _ & Hall & _ & ->).
  apply Forall_fmap. eapply Forall_impl; [exact Hall|]. done.
Qed.

(** Extra X5.  [promptForArgs] returns no argument and consumes one line
    when the first answer is not yes; otherwise it returns the following
    lines, white space removed, up to the first blank one (or the end of
    input), which it consumes.  No returned argument is empty. *)
Theorem promptForArgs_collects (reader : Reader) :
  Forall (λ arg, arg ≠ "") (promptForArgs reader).1 ∧
  (declined (ReadString reader).1 = true →
   promptForArgs reader = ([], (ReadString reader).2)) ∧
  (declined (ReadString reader).1 = false →
   ∃ lines rest,
     (ReadString reader).2 = lines ++ rest ∧
     Forall (λ line, Wizard.TrimSpace line ≠ "") lines ∧
     Wizard.TrimSpace (ReadString rest).1 = "" ∧
     promptForArgs reader =
       (map Wizard.TrimSpace lines, (ReadString rest).2)).
Proof.
  split; [apply promptForArgs_nonempty|].
  unfold promptForArgs.
  destruct (declined (ReadString reader).1) eqn:Hyes.
  - split; [done|discriminate].
  - destruct (argsLoop_run (ReadString reader).2 [])
      as (lines & rest & Hsplit & Hall & Hend & Hrun).
    rewrite Hrun. split; [discriminate|].
    intros _. by exists lines, rest.
Qed.

Lemma secretMountsLoop_complete (n : nat) :
  ∀ reader secretMounts,
    (length reader ≤ n)%nat →
    Forall complete secretMounts →
    Forall complete (secretMountsLoop reader secretMounts).1.
Proof.
  induction n as [|n IH]; intros reader secretMounts Hn Hall.
  - destruct reader; [done|simpl in Hn; lia].
  - destruct reader as [|line reader1]; [done|].
    assert (length (ReadString reader1).2 ≤ n)%nat as Hshort.
    { pose proof (ReadString_length reader1). simpl in Hn. lia. }
    cbn [secretMountsLoop].
    destruct (decide (Wizard.TrimSpace line = "")); [done|].
    destruct (decide (Wizard.TrimSpace (ReadString reader1).1 = "")).
    + by apply IH.
    + apply IH; [done|]. apply Forall_app. split; [done|].
      by repeat constructor.
Qed.

Lemma promptForSecretMounts_all_complete (reader : Reader) :
  Forall complete (promptForSecretMounts reader).1.
Proof.
  unfold promptForSecretMounts.
  destruct (declined (ReadString reader).1); [constructor|].
  by apply (secretMountsLoop_complete (length (ReadString reader).2)).
Qed.

(** The loop of [promptForSecretMounts] on answers given in pairs, a
    secret name and a mount path, up to a blank secret name: the pairs
    with a blank mount path are left out, wherever they stand. *)
Lemma secretMountsLoop_run (pairs : list (string * string)) (rest : Reader) :
  ∀ secretMounts,
    Forall (λ p, Wizard.TrimSpace p.1 ≠ "") pairs →
    Wizard.TrimSpace (ReadString rest).1 = "" →
    secretMountsLoop (flat_map (λ p, [p.1; p.2]) pairs ++ rest) secretMounts =
    (secretMounts ++
       map (λ p, {| SecretMount.SecretName := Wizard.TrimSpace p.1;
                    SecretMount.MountPath := Wizard.TrimSpace p.2 |})
         (filter (λ p, Wizard.TrimSpace p.2 ≠ "") pairs),
     (ReadString rest).2).
Proof.
  induction pairs as [|[name path] pairs IH]; intros secretMounts Hnames Hend.
  - cbn [flat_map app filter list_filter map]. rewrite app_nil_r.
    destruct rest as [|line rest].
    + by rewrite ReadString_nil.
    + rewrite ReadString_cons in *. cbn [fst snd secretMountsLoop] in *.
      by rewrite decide_True.
  - apply Forall_cons in Hnames as [Hname Hnames]. cbn [fst snd] in Hname.
    cbn [flat_map app fst snd secretMountsLoop].
    rewrite decide_False by done. rewrite ReadString_cons. cbn [fst snd].
    rewrite filter_cons. cbn [fst snd].
    destruct (decide (Wizard.TrimSpace path = "")) as [Hblank|Hpath].
    + rewrite decide_False by (intros Hne; by apply Hne). by apply IH.
    + rewrite decide_True by done. rewrite IH by done.
      cbn [map fst snd]. by rewrite <- app_assoc.
Qed.

(** Extra X6.  Every mount returned by [promptForSecretMounts] has a
    secret name and a mount path that are not empty.  A secret name
    answered with a blank mount path is dropped and the prompt goes on:
    the result is the one without those two lines.  This holds wherever
    the two lines stand: after a yes, answers given in pairs up to a blank
    secret name (or the end of input) yield the pairs whose mount path is
    not blank, white space removed and in the order typed, and the blank
    line is consumed. *)
Theorem promptForSecretMounts_complete (reader : Reader) :
  Forall (λ m, SecretMount.SecretName m ≠ "" ∧ SecretMount.MountPath m ≠ "")
    (promptForSecretMounts reader).1 ∧
  (∀ yes name blank rest,
     reader = yes :: name :: blank :: rest →
     declined yes = false →
     Wizard.TrimSpace name ≠ "" →
     Wizard.TrimSpace blank = "" →
     promptForSecretMounts reader = promptForSecretMounts (yes :: rest)) ∧
  (∀ yes (pairs : list (string * string)) rest,
     reader = yes :: flat_map (λ p, [p.1; p.2]) pairs ++ rest →
     declined yes = false →
     Forall (λ p, Wizard.TrimSpace p.1 ≠ "") pairs →
     Wizard.TrimSpace (ReadString rest).1 = "" →
     promptForSecretMounts reader =
       (map (λ p, {| SecretMount.SecretName := Wizard.TrimSpace p.1;
                     SecretMount.MountPath := Wizard.TrimSpace p.2 |})
          (filter (λ p, Wizard.TrimSpace p.2 ≠ "") pairs),
        (ReadString rest).2)).
Proof.
  split; [|split].
  - apply promptForSecretMounts_all_complete.
  - intros yes name blank rest -> Hyes Hname Hblank.
    unfold promptForSecretMounts. rewrite !ReadString_cons. cbn [fst snd].
    rewrite Hyes. cbn [secretMountsLoop]. rewrite ReadString_cons. cbn [fst snd].
    rewrite decide_False by done. by rewrite decide_True by done.
  - intros yes pairs rest -> Hyes Hnames Hend.
    unfold promptForSecretMounts. rewrite ReadString_cons. cbn [fst snd].
    rewrite Hyes. by rewrite secretMountsLoop_run.
Qed.

Lemma envVarsLoop_wellFormed (n : nat) :
  ∀ reader envVars,
    (length reader ≤ n)%nat →
    Forall wellFormed envVars →
    Forall wellFormed (envVarsLoop reader envVars).1.
Proof.
  induction n as [|n IH]; intros reader envVars Hn Hall.
  - destruct reader; [done|simpl in Hn; lia].
  - destruct reader as [|line reader1]; [done|].
    assert (∀ r : Reader, length (ReadString r).2 ≤ length r)%nat as Hshort.
    { intros r. apply ReadString_length. }
    simpl in Hn. cbn [envVarsLoop].
    destruct (decide (Wizard.TrimSpace line = "")); [done|].
    destruct (decide (ToLower (Wizard.TrimSpace (ReadString reader1).1) = "secret")).
    + apply IH.
      * pose proof (Hshort reader1). pose proof (Hshort (ReadString reader1).2).
        pose proof (Hshort (ReadString (ReadString reader1).2).2). lia.
      * apply Forall_app. split; [done|]. apply Forall_singleton.
        split; [done|]. right. split; [done|]. by eexists _, _.
    + apply IH.
      * pose proof (Hshort reader1). pose proof (Hshort (ReadString reader1).2). lia.
      * apply Forall_app. split; [done|]. apply Forall_singleton.
        split; [done|]. by left.
Qed.

Lemma promptForEnvVars_all_wellFormed (reader : Reader) :
  Forall wellFormed (promptForEnvVars reader).1.
Proof.
  unfold promptForEnvVars. destruct (declined (ReadString reader).1); [constructor|].
  by apply (envVarsLoop_wellFormed (length (ReadString reader).2)).
Qed.

(** Extra X7.  Every entry returned by [promptForEnvVars] has a name that
    is not empty and carries either a literal value or a reference to a
    secret key with an empty literal value, never both.  When the first
    answer is not yes, no entry is returned and one line is consumed. *)
Theorem promptForEnvVars_wellFormed (reader : Reader) :
  Forall
    (λ e,
       EnvVar.Name e ≠ "" ∧
       (EnvVar.ValueFrom e = None ∨
        EnvVar.Value e = "" ∧
        ∃ secretName secretKey,
          EnvVar.ValueFrom e =
            Some {| EnvVarSource.SecretKeyRef :=
                      Some {| SecretKeySelector.Name := secretName;
                              SecretKeySelector.Key := secretKey |} |}))
    (promptForEnvVars reader).1 ∧
  (declined (ReadString reader).1 = true →
   promptForEnvVars reader = ([], (ReadString reader).2)).
Proof.
  split; [apply promptForEnvVars_all_wellFormed|].
  unfold promptForEnvVars. by destruct (declined (ReadString reader).1).
Qed.

Section ResourcesResults.
Context (ParseQuantity : string → string + error).

Lemma resourceStep_insert (answer name : string) (list : gmap string string) :
  resourceStep ParseQuantity answer name list =
  match slot ParseQuantity answer with
  | Some quantity => <[name := quantity]> list
  | None => list
  end.
Proof.
  unfold resourceStep, slot, parseResourceQuantity.
  destruct (decide (Wizard.TrimSpace answer = "")) as [->|Hne].
  - done.
  - rewrite decide_True by done.
    by destruct (ParseQuantity (Wizard.TrimSpace answer)).
Qed.

Lemma filled_lookup (cpu memory : option string) (name : string) :
  filled cpu memory !! name =
  if decide (name = "cpu") then cpu
  else if decide (name = "memory") then memory
  else None.
Proof.
  unfold filled. destruct cpu, memory; repeat case_decide; by simplify_map_eq.
Qed.

Lemma filled_empty (cpu memory : option string) :
  size (filled cpu memory) = 0%nat ↔ cpu = None ∧ memory = None.
Proof.
  rewrite map_size_empty_iff. split.
  - intros Hempty.
    pose proof (filled_lookup cpu memory "cpu") as Hcpu.
    pose proof (filled_lookup cpu memory "memory") as Hmemory.
    rewrite Hempty, lookup_empty in Hcpu, Hmemory.
    rewrite decide_True in Hcpu by done.
    rewrite decide_False, decide_True in Hmemory by done. done.
  - by intros [-> ->].
Qed.

(** Extra X8.  [promptForResources] consumes one line when the first
    answer is not yes and five otherwise.  The four answers that follow
    fill the CPU request, the memory request, the CPU limit and the memory
    limit, each on its own: a blank answer or one [ParseQuantity] rejects
    leaves its slot unset and does not touch the others.  The result is
    nil exactly when no slot was set; a result that is not nil has both
    lists made and at least one entry. *)
Theorem promptForResources_slots (reader : Reader) :
  let answer (i : nat) := (ReadString (drop i reader)).1 in
  let quantity (i : nat) :=
    let value := Wizard.TrimSpace (answer i) in
    if decide (value = "") then None
    else match ParseQuantity value with
         | inl q => Some q
         | inr _ => None
         end in
  let r := promptForResources ParseQuantity reader in
  (declined (answer 0%nat) = true → r = (None, drop 1 reader)) ∧
  (declined (answer 0%nat) = false →
   r.2 = drop 5 reader ∧
   match r.1 with
   | None =>
       quantity 1%nat = None ∧ quantity 2%nat = None ∧
       quantity 3%nat = None ∧ quantity 4%nat = None
   | Some resources =>
       ∃ requests limits,
         ResourceRequirements.Requests resources = Some requests ∧
         ResourceRequirements.Limits resources = Some limits ∧
         (∀ name, requests !! name =
            if decide (name = "cpu") then quantity 1%nat
            else if decide (name = "memory") then quantity 2%nat
            else None) ∧
         (∀ name, limits !! name =
            if decide (name = "cpu") then quantity 3%nat
            else if decide (name = "memory") then quantity 4%nat
            else None) ∧
         (requests ≠ ∅ ∨ limits ≠ ∅)
   end).
Proof.
  cbv zeta.
  assert (∀ i, (ReadString (drop i reader)).2 = drop (S i) reader) as Hnext
    by (intros i; apply ReadString_drop).
  assert ((ReadString reader).2 = drop 1 reader) as H1 by apply (Hnext 0%nat).
  unfold promptForResources. rewrite drop_0.
  destruct (declined (ReadString reader).1).
  { split; [intros _; by rewrite H1|discriminate]. }
  split; [discriminate|intros _].
  rewrite !resourceStep_insert. rewrite H1, !Hnext.
  fold (slot ParseQuantity (ReadString (drop 1 reader)).1).
  fold (slot ParseQuantity (ReadString (drop 2 reader)).1).
  fold (slot ParseQuantity (ReadString (drop 3 reader)).1).
  fold (slot ParseQuantity (ReadString (drop 4 reader)).1).
  unfold ResourceCPU, ResourceMemory.
  fold (filled (slot ParseQuantity (ReadString (drop 1 reader)).1)
          (slot ParseQuantity (ReadString (drop 2 reader)).1)).
  fold (filled (slot ParseQuantity (ReadString (drop 3 reader)).1)
          (slot ParseQuantity (ReadString (drop 4 reader)).1)).
  case_bool_decide as Hsize; cbn [fst snd]; (split; [done|]).
  - destruct Hsize as [[? ?]%filled_empty [? ?]%filled_empty]. done.
  - eexists _, _. do 2 (split; [reflexivity|]).
    split; [apply filled_lookup|]. split; [apply filled_lookup|].
    destruct (decide (filled (slot ParseQuantity (ReadString (drop 1 reader)).1)
                        (slot ParseQuantity (ReadString (drop 2 reader)).1) = ∅)) as [Hr|Hr];
      [|by left].
    right. intros Hl. apply Hsize. by rewrite Hr, Hl.
Qed.
End ResourcesResults.

Section PairsResults.
Context {K : Type}.

Lemma typedPairs_keys (n : nat) :
  ∀ reader, (length reader ≤ n)%nat →
    Forall (λ kv, kv.1 ≠ "") (typedPairs reader).1.
Proof.
  induction n as [|n IH]; intros reader Hn.
  - destruct reader; [constructor|simpl in Hn; lia].
  - destruct reader as [|line reader1]; [constructor|].
    cbn [typedPairs]. destruct (decide (Wizard.TrimSpace line = "")); [constructor|].
    cbn [fst]. constructor; [done|]. apply IH.
    pose proof (ReadString_length reader1). simpl in Hn. lia.
Qed.

Lemma pairsLoop_run (n : nat) :
  ∀ reader (pairs : loc) (w : World K),
    (length reader ≤ n)%nat →
    pairsLoop reader pairs w =
    ((typedPairs reader).2,
     {| heap := alter (assignAll (typedPairs reader).1) pairs (heap w);
        kube := kube w; calls := calls w |}).
Proof.
  induction n as [|n IH]; intros reader pairs [h k c] Hn.
  - destruct reader; [|simpl in Hn; lia]. unfold pairsLoop, ret; simpl.
    by rewrite alter_id.
  - destruct reader as [|line reader1].
    { unfold pairsLoop, ret; simpl. by rewrite alter_id. }
    cbn [pairsLoop typedPairs].
    destruct (decide (Wizard.TrimSpace line = "")).
    { unfold ret; simpl. by rewrite alter_id. }
    unfold bind, map_assign. cbn [fst snd heap kube calls].
    rewrite IH by (pose proof (ReadString_length reader1); simpl in Hn; lia).
    cbn [fst snd heap kube calls]. by rewrite alter_alter_eq.
Qed.

Lemma promptForKeyValuePairs_run (reader : Reader) (w : World K) :
  let pairs := fresh (dom (heap w)) in
  let typed :=
    if declined (ReadString reader).1 then ([], (ReadString reader).2)
    else typedPairs (ReadString reader).2 in
  promptForKeyValuePairs reader w =
  ((Some pairs, typed.2),
   {| heap := <[pairs := assignAll typed.1 ∅]> (heap w);
      kube := kube w; calls := calls w |}).
Proof.
  cbv zeta. destruct w as [h k c].
  unfold promptForKeyValuePairs, bind, make_map. cbn [fst snd heap kube calls].
  destruct (declined (ReadString reader).1); [done|].
  rewrite (pairsLoop_run (length (ReadString reader).2)) by done.
  cbn [fst snd heap kube calls]. unfold ret. by rewrite alter_insert_eq.
Qed.

(** Extra X9.  [promptForKeyValuePairs] returns a map it has just made:
    its location was not in use, every map that existed is untouched, and
    the cluster and the call log are those of before.  The empty string is
    never a key.  When the first answer is not yes the map is empty and
    one line is consumed. *)
Theorem promptForKeyValuePairs_fresh_map (reader : Reader) (w : World K) :
  let r := promptForKeyValuePairs reader w in
  ∃ pairs,
    r.1.1 = Some pairs ∧
    (pairs ∉ dom (heap w)) ∧
    (pairs ∈ dom (heap r.2)) ∧
    (∀ l, l ∈ dom (heap w) → heap r.2 !! l = heap w !! l) ∧
    entries (heap r.2) (Some pairs) !! "" = None ∧
    (declined (ReadString reader).1 = true →
     entries (heap r.2) (Some pairs) = ∅ ∧ r.1.2 = (ReadString reader).2) ∧
    kube r.2 = kube w ∧ calls r.2 = calls w.
Proof.
  cbv zeta. rewrite promptForKeyValuePairs_run. simpl.
  eexists. split; [reflexivity|]. split; [apply is_fresh|].
  split; [rewrite dom_insert_L; set_solver|].
  split.
  { intros l Hl. apply lookup_insert_ne. intros <-. by apply (is_fresh (dom (heap w))). }
  simpl. rewrite lookup_insert_eq; simpl. split.
  - rewrite assignAll_no_key; [done|].
    destruct (declined (ReadString reader).1); [constructor|].
    apply (typedPairs_keys (length (ReadString reader).2)). done.
  - split; [|done]. by intros ->.
Qed.

Lemma typedPairs_encoded kvs rest :
  Forall (λ kv, Wizard.TrimSpace kv.1 ≠ "") kvs →
  Wizard.TrimSpace (ReadString rest).1 = "" →
  typedPairs (flat_map (λ kv, [kv.1; kv.2]) kvs ++ rest) =
  (map (λ kv, (Wizard.TrimSpace kv.1, Wizard.TrimSpace kv.2)) kvs,
   (ReadString rest).2).
Proof.
  intros Hkeys Hend. induction Hkeys as [|[k v] kvs Hk _ IH]; simpl.
  - destruct rest as [|line rest]; [by rewrite ReadString_nil|]. simpl.
    rewrite ReadString_cons in *. by rewrite decide_True.
  - simpl in Hk. rewrite decide_False by done.
    rewrite ReadString_cons. simpl. by rewrite IH.
Qed.

(** Extra X10.  When key and value lines with keys that are not blank are
    typed after a yes and followed by a blank line, the returned map binds
    each key, white space removed, to the value typed last for it, and the
    reader stands after the blank line. *)
Theorem promptForKeyValuePairs_last_value_wins
    (yes : string) (kvs : list (string * string)) (rest : Reader) (w : World K) :
  declined yes = false →
  Forall (λ kv, Wizard.TrimSpace kv.1 ≠ "") kvs →
  Wizard.TrimSpace (ReadString rest).1 = "" →
  let r := promptForKeyValuePairs
             (yes :: flat_map (λ kv, [kv.1; kv.2]) kvs ++ rest) w in
  entries (heap r.2) r.1.1 =
    list_to_map
      (reverse (map (λ kv, (Wizard.TrimSpace kv.1, Wizard.TrimSpace kv.2)) kvs)) ∧
  r.1.2 = (ReadString rest).2.
Proof.
  intros Hyes Hkeys Hend. cbv zeta. rewrite promptForKeyValuePairs_run.
  rewrite ReadString_cons. simpl.
  rewrite Hyes, typedPairs_encoded by done.
  simpl. rewrite lookup_insert_eq; simpl. by rewrite assignAll_last_wins.
Qed.

End PairsResults.

Lemma int32_wrap_range (z : Z) : int32 (int32_wrap z).
Proof.
  unfold int32, int32_wrap.
  pose proof (Z.mod_pos_bound (z + 2 ^ 31) (2 ^ 32)). lia.
Qed.

Lemma deployServer_Port_int32 (line : string) (port : Z) :
  Wizard.deployServer_Port line = Some port → int32 port.
Proof.
  unfold Wizard.deployServer_Port. case_decide.
  - intros [= <-]. unfold int32. lia.
  - destruct (Wizard.ParseInt _ _); [|done]. intros [= <-]. apply int32_wrap_range.
Qed.

Lemma namespaceOr_default_nonempty (answer : string) :
  namespaceOr_default answer ≠ "".
Proof. unfold namespaceOr_default. by case_decide. Qed.

Lemma alloc_frame (h : Heap) (x : gmap string string) (l : loc) :
  l ∈ dom h → <[fresh (dom h) := x]> h !! l = h !! l.
Proof. intros Hl. apply lookup_insert_ne. intros <-. by apply (is_fresh (dom h)). Qed.

Lemma alloc_dom (h : Heap) (x : gmap string string) (l : loc) :
  l ∈ dom h → l ∈ dom (<[fresh (dom h) := x]> h).
Proof. rewrite dom_insert_L. set_solver. Qed.

Lemma alloc_new (h : Heap) (x : gmap string string) :
  fresh (dom h) ∈ dom (<[fresh (dom h) := x]> h).
Proof. rewrite dom_insert_L. set_solver. Qed.

Section DeployCommand.
Context {K : Type} (clientset : Clientset K).
Context (ParseQuantity : string → string + error).

(** Extra X11.  [deployServer] leaves every map that existed untouched.
    Either it makes no call to the cluster, or it runs [DeployMCPServer]
    once, on a spec whose name is the first answer with white space
    removed and is not empty, whose namespace and image are not empty,
    whose port fits [int32], whose environment entries have names, whose
    arguments are not empty, whose secret mounts have a name and a path,
    and whose label and annotation maps are two different live maps. *)
Theorem deployServer_submits_validated_specs (reader : Reader) (w : World K) :
  let r := deployServer clientset ParseQuantity reader w in
  (∀ l, l ∈ dom (heap w) → heap r.2 !! l = heap w !! l) ∧
  ((calls r.2 = calls w ∧ kube r.2 = kube w) ∨
   ∃ spec w1,
     r.2 = (DeployMCPServer clientset spec w1).2 ∧
     calls w1 = calls w ∧ kube w1 = kube w ∧
     MCPServerSpec.Name spec = Wizard.TrimSpace (ReadString reader).1 ∧
     MCPServerSpec.Name spec ≠ "" ∧
     MCPServerSpec.Namespace spec ≠ "" ∧
     MCPServerSpec.Image spec ≠ "" ∧
     int32 (MCPServerSpec.Port spec) ∧
     Forall (λ e, EnvVar.Name e ≠ "") (MCPServerSpec.EnvVars spec) ∧
     Forall (λ arg, arg ≠ "") (MCPServerSpec.Args spec) ∧
     Forall (λ m, SecretMount.SecretName m ≠ "" ∧ SecretMount.MountPath m ≠ "")
       (MCPServerSpec.SecretMounts spec) ∧
     allocated (heap w1) (MCPServerSpec.Labels spec) = true ∧
     allocated (heap w1) (MCPServerSpec.Annotations spec) = true ∧
     MCPServerSpec.Labels spec ≠ MCPServerSpec.Annotations spec).
Proof.
  cbv zeta. destruct w as [h k c].
  unfold deployServer, bind, make_map. cbn [fst snd heap kube calls].
  set (h1 := <[fresh (dom h) := ∅]> h).
  set (h2 := <[fresh (dom h1) := ∅]> h1).
  assert (∀ l, l ∈ dom h → h2 !! l = h !! l) as Hframe2.
  { intros l Hl. unfold h2. rewrite alloc_frame by by apply alloc_dom.
    by apply alloc_frame. }
  assert (∀ l, l ∈ dom h → l ∈ dom h2) as Hdom2.
  { intros l Hl. by do 2 apply alloc_dom. }
  case_decide as Hname;
    [unfold ret; cbn [fst snd heap kube calls]; split; [exact Hframe2|by left]|].
  case_decide as Himage;
    [unfold ret; cbn [fst snd heap kube calls]; split; [exact Hframe2|by left]|].
  destruct (Wizard.deployServer_Port _) as [port|] eqn:Hport;
    [|unfold ret; cbn [fst snd heap kube calls]; split; [exact Hframe2|by left]].
  match goal with
  | |- context [promptForEnvVars ?r] =>
      pose proof (promptForEnvVars_all_wellFormed r) as Henv;
      destruct (promptForEnvVars r) as [envVars reader1]
  end.
  match goal with
  | |- context [promptForArgs ?r] =>
      pose proof (promptForArgs_nonempty r) as Hargs;
      destruct (promptForArgs r) as [args reader2]
  end.
  match goal with
  | |- context [promptForSecretMounts ?r] =>
      pose proof (promptForSecretMounts_all_complete r) as Hmounts;
      destruct (promptForSecretMounts r) as [secretMounts reader3]
  end.
  cbn [fst snd] in *.
  rewrite promptForKeyValuePairs_run. cbn [fst snd heap kube calls].
  match goal with
  | |- context [assignAll (fst ?t) ∅] => set (typed1 := t)
  end.
  rewrite promptForKeyValuePairs_run. cbn [fst snd heap kube calls].
  match goal with
  | |- context [assignAll (fst (if declined ?a then ?x else ?y)) ∅] =>
      set (typed2 := if declined a then x else y)
  end.
  match goal with
  | |- context [promptForResources ParseQuantity ?r] =>
      destruct (promptForResources ParseQuantity r) as [resources reader4]
  end.
  set (m1 := assignAll _ ∅). set (h3 := <[fresh (dom h2) := m1]> h2).
  set (m2 := assignAll _ ∅). set (h4 := <[fresh (dom h3) := m2]> h3).
  assert (∀ l, l ∈ dom h → h4 !! l = h !! l) as Hframe4.
  { intros l Hl. unfold h4, h3. rewrite !alloc_frame; auto using alloc_dom. }
  assert (∀ l, l ∈ dom h → l ∈ dom h4) as Hdom4.
  { intros l Hl. unfold h4, h3. auto using alloc_dom. }
  destruct (declined (ReadString reader4).1);
    [unfold ret; cbn [fst snd heap kube calls]; split; [exact Hframe4|by left]|].
  unfold ret. cbn [fst snd heap kube calls].
  match goal with
  | |- context [DeployMCPServer clientset ?s ?w0] =>
      set (spec := s); set (w1 := w0)
  end.
  destruct (DeployMCPServer clientset spec w1) as [err w2] eqn:Hdeploy.
  cbn [fst snd]. split.
  - intros l Hl.
    replace w2 with (DeployMCPServer clientset spec w1).2 by by rewrite Hdeploy.
    rewrite DeployMCPServer_frame by by apply Hdom4. by apply Hframe4.
  - right. exists spec, w1. rewrite Hdeploy.
    split; [done|]. do 2 (split; [done|]). split; [done|].
    split; [done|]. split; [apply namespaceOr_default_nonempty|].
    split; [done|]. split; [by eapply deployServer_Port_int32|].
    split; [eapply Forall_impl; [exact Henv|]; by intros ? [? _]|].
    do 2 (split; [done|]). simpl.
    split; [apply bool_decide_eq_true; unfold h4; apply alloc_dom, alloc_new|].
    split; [apply bool_decide_eq_true; unfold h4; apply alloc_new|].
    intros [= Heq]. apply (is_fresh (dom h3)). rewrite <- Heq. apply alloc_new.
Qed.

End DeployCommand.

(** ** The port of the manifests *)

Section Ports.
Context {K : Type} (clientset : Clientset K).

(** A run of [deployServer] that reaches the deployer submits a spec whose
    port is what the port step makes of the fourth answer. *)
Lemma deployServer_port (ParseQuantity : string → string + error)
    (reader : Reader) (w : World K) :
  let r := deployServer clientset ParseQuantity reader w in
  calls r.2 = calls w ∨
  ∃ spec w1,
    r.2 = (DeployMCPServer clientset spec w1).2 ∧
    calls w1 = calls w ∧
    Wizard.deployServer_Port (ReadString (drop 3 reader)).1 =
      Some (MCPServerSpec.Port spec).
Proof.
  cbv zeta.
  rewrite <- (ReadString_drop reader 2), <- (ReadString_drop reader 1),
    <- (ReadString_drop reader 0), drop_0.
  destruct w as [h k c].
  unfold deployServer, bind, make_map. cbn [fst snd heap kube calls].
  case_decide as Hname; [by left|].
  case_decide as Himage; [by left|].
  destruct (Wizard.deployServer_Port _) as [port|] eqn:Hport; [|by left].
  match goal with
  | |- context [promptForEnvVars ?r] =>
      destruct (promptForEnvVars r) as [envVars reader1]
  end.
  match goal with
  | |- context [promptForArgs ?r] =>
      destruct (promptForArgs r) as [args reader2]
  end.
  match goal with
  | |- context [promptForSecretMounts ?r] =>
      destruct (promptForSecretMounts r) as [secretMounts reader3]
  end.
  cbn [fst snd].
  rewrite promptForKeyValuePairs_run. cbn [fst snd heap kube calls].
  rewrite promptForKeyValuePairs_run. cbn [fst snd heap kube calls].
  match goal with
  | |- context [promptForResources ParseQuantity ?r] =>
      destruct (promptForResources ParseQuantity r) as [resources reader4]
  end.
  destruct (declined (ReadString reader4).1); [by left|].
  right. unfold ret. cbn [fst snd].
  match goal with
  | |- context [DeployMCPServer clientset ?s ?w0] => exists s, w0
  end.
  split; [by destruct (DeployMCPServer clientset _ _)|]. by split.
Qed.

(** Claim C7, amended.  The translator copies [spec.Port] as it is into
    the container port, the service port and the target port; it has no
    default of its own.  The value 8080 is what the wizard stores in
    [spec.Port] when the port prompt is answered with nothing but white
    space: a run of [deployServer] with such a fourth answer either makes
    no call to the cluster or runs [DeployMCPServer] on a spec with port
    8080, so that the deployment handed to the cluster has container port
    8080 and, unless the deployment was refused and an error reported, the
    service handed to it has port and target port 8080. *)
Theorem ports_copied_from_spec (spec : MCPServerSpec.t) (w : World K) :
  int32 (MCPServerSpec.Port spec) →
  (∃ deployment container service,
     calls (createDeployment clientset spec w).2 =
       calls w ++ [DeploymentsCreate (MCPServerSpec.Namespace spec) deployment] ∧
     calls (createService clientset spec w).2 =
       calls w ++ [ServicesCreate (MCPServerSpec.Namespace spec) service] ∧
     containersOf deployment = [container] ∧
     Container.Ports container =
       [ {| ContainerPort.Name := "mcp";
            ContainerPort.ContainerPort := MCPServerSpec.Port spec;
            ContainerPort.Protocol := "TCP" |} ] ∧
     ServiceSpec.Ports (Service.Spec service) =
       [ {| ServicePort.Name := "mcp";
            ServicePort.Port := MCPServerSpec.Port spec;
            ServicePort.TargetPort := IntVal (MCPServerSpec.Port spec);
            ServicePort.Protocol := "TCP" |} ]) ∧
  (∀ line, Wizard.TrimSpace line = "" → Wizard.deployServer_Port line = Some 8080) ∧
  (∀ (ParseQuantity : string → string + error) (reader : Reader),
     Wizard.TrimSpace (ReadString (drop 3 reader)).1 = "" →
     let r := deployServer clientset ParseQuantity reader w in
     calls r.2 = calls w ∨
     ∃ submitted w1 deployment rest,
       r.2 = (DeployMCPServer clientset submitted w1).2 ∧
       calls w1 = calls w ∧
       MCPServerSpec.Port submitted = 8080 ∧
       calls r.2 =
         calls w ++
         DeploymentsCreate (MCPServerSpec.Namespace submitted) deployment :: rest ∧
       containerPortsOf deployment = [8080] ∧
       (rest = [] ∧ (DeployMCPServer clientset submitted w1).1 ≠ None ∨
        ∃ service,
          rest = [ServicesCreate (MCPServerSpec.Namespace submitted) service] ∧
          servicePortsOf service = [(8080, IntVal 8080)])).
Proof.
  intros Hport. split; [|split].
  - rewrite createDeployment_run, createService_run; simpl.
    do 3 eexists. do 3 (split; [reflexivity|]). simpl.
    split; [reflexivity|]. unfold FromInt. by rewrite int32_wrap_id.
  - intros line Hline. unfold Wizard.deployServer_Port. by rewrite Hline.
  - intros ParseQuantity reader Hblank. cbv zeta.
    destruct (deployServer_port ParseQuantity reader w)
      as [Hnone|(submitted & w1 & Hrun & Hcalls & Hsubmitted)]; [by left|].
    right.
    unfold Wizard.deployServer_Port in Hsubmitted.
    rewrite Hblank in Hsubmitted. rewrite decide_True in Hsubmitted by done.
    injection Hsubmitted as Hsubmitted.
    exists submitted, w1. rewrite Hrun, DeployMCPServer_run. cbv zeta.
    rewrite createService_run, createDeployment_run.
    cbn [fst snd heap kube calls]. rewrite Hcalls.
    destruct (deployments_create clientset _ _ _ (kube w1)) as [[e|] k1];
      cbn [fst snd wrapped heap kube calls].
    + do 2 eexists. do 3 (split; [done|]). split; [reflexivity|].
      split; [unfold containerPortsOf; simpl; by rewrite <- Hsubmitted|]. by left.
    + do 2 eexists. do 3 (split; [done|]).
      split; [by rewrite <- app_assoc|].
      split; [unfold containerPortsOf; simpl; by rewrite <- Hsubmitted|]. right. eexists. split; [reflexivity|].
      unfold servicePortsOf; simpl. unfold FromInt.
      rewrite <- Hsubmitted. by rewrite int32_wrap_id.
Qed.

End Ports.

(** ** The commands of the wizard *)

Lemma reads_hold_no_delete (reads : list Call) :
  Forall (λ c, is_read c = true) reads →
  filter (λ c, is_delete c = true) reads = [].
Proof.
  induction 1 as [|c reads Hc _ IH]; [done|].
  rewrite filter_cons, IH. destruct c; simpl in *; by try case_decide.
Qed.

Section OtherCommands.
Context {K : Type} (clientset : Clientset K).

Lemma DeleteMCPServer_calls (namespace name : string) (w : World K) :
  ∃ rest,
    calls (DeleteMCPServer clientset namespace name w).2 =
      calls w ++ DeploymentsDelete namespace name :: rest ∧
    (rest = [] ∨ rest = [ServicesDelete namespace name]).
Proof.
  unfold DeleteMCPServer, bind, Deployments_Delete, Services_Delete.
  destruct (deployments_delete clientset namespace name (kube w)) as [[e|] k1]; simpl.
  - exists []. by split; [|left].
  - exists [ServicesDelete namespace name].
    destruct (services_delete clientset namespace name k1) as [[e|] k2]; simpl;
      rewrite <- app_assoc; by split; [|right].
Qed.

Lemma ListMCPServers_reads (namespace : string) (w : World K) :
  ∃ reads,
    calls (ListMCPServers clientset namespace w).2 = calls w ++ reads ∧
    Forall (λ c, is_read c = true) reads.
Proof.
  destruct (ListMCPServers_calls clientset namespace w) as (items & -> & _).
  eexists. split; [reflexivity|]. constructor; [done|].
  apply Forall_fmap. by apply Forall_true.
Qed.

(** Extra X12.  [listServers] consumes one line, lists the namespace
    answered, or [default] when the answer is blank, and only reads the
    cluster: the calls it adds are the one [DeploymentsList] with the
    identifying selector followed by one [ServicesGet] per available item,
    and none when listing fails. *)
Theorem listing_only_reads (reader : Reader) (w : World K) :
  let namespace := namespaceOr_default (ReadString reader).1 in
  let r := listServers clientset reader w in
  r.1 = (ReadString reader).2 ∧
  (Wizard.TrimSpace (ReadString reader).1 = "" → namespace = "default") ∧
  ∃ items,
    calls r.2 =
      calls w ++ DeploymentsList namespace listOptions ::
      map (λ d, ServicesGet namespace (nameOf d))
        (filter (λ d, available d = true) items) ∧
    match (deployments_list clientset namespace listOptions (heap w) (kube w)).1.1 with
    | inl listed => items = listed
    | inr _ => items = []
    end.
Proof.
  cbv zeta. unfold listServers, bind.
  destruct (ListMCPServers clientset _ w) as [listed w1] eqn:Hlisted.
  unfold ret; simpl. split; [done|]. split.
  { intros Hblank. unfold namespaceOr_default. by rewrite decide_True. }
  replace w1 with
    (ListMCPServers clientset (namespaceOr_default (ReadString reader).1) w).2
    by by rewrite Hlisted.
  apply ListMCPServers_calls.
Qed.

(** Extra X13.  [deleteServer] runs [DeleteMCPServer], in the namespace
    answered and on the name answered, exactly when the listing made
    before succeeded with at least one server, the name is not blank and
    the confirmation is yes; the name is not compared with the listing.
    In every other case the world is the one the listing left and no
    delete primitive has been invoked. *)
Theorem deleteServer_guards (reader : Reader) (w : World K) :
  let namespace := namespaceOr_default (ReadString reader).1 in
  let listed := ListMCPServers clientset namespace w in
  let name := Wizard.TrimSpace (ReadString (drop 1 reader)).1 in
  let confirm := (ReadString (drop 2 reader)).1 in
  let r := deleteServer clientset reader w in
  let go :=
    listed.1.2 = None ∧ listed.1.1 ≠ [] ∧ name ≠ "" ∧ declined confirm = false in
  (go →
   r.2 = (DeleteMCPServer clientset namespace name listed.2).2 ∧
   ∃ rest,
     calls r.2 = calls listed.2 ++ DeploymentsDelete namespace name :: rest ∧
     (rest = [] ∨ rest = [ServicesDelete namespace name])) ∧
  (¬ go →
   r.2 = listed.2 ∧
   filter (λ c, is_delete c = true) (calls r.2) =
     filter (λ c, is_delete c = true) (calls w)).
Proof.
  cbv zeta.
  assert (∀ namespace,
            filter (λ c, is_delete c = true)
              (calls (ListMCPServers clientset namespace w).2) =
            filter (λ c, is_delete c = true) (calls w)) as Hreads.
  { intros namespace.
    destruct (ListMCPServers_reads namespace w) as (reads & -> & Hall).
    rewrite filter_app, (reads_hold_no_delete reads) by done.
    by rewrite app_nil_r. }
  rewrite <- (ReadString_drop reader 1), <- (ReadString_drop reader 0), drop_0.
  unfold deleteServer, bind.
  destruct (ListMCPServers clientset _ w) as [[servers err] w1] eqn:Hlisted.
  specialize (Hreads (namespaceOr_default (ReadString reader).1)).
  rewrite Hlisted in Hreads. cbn [fst snd] in *.
  destruct err as [e|].
  { unfold ret; simpl. split; [by intros (? & _)|by intros _; split]. }
  case_bool_decide as Hlen.
  { unfold ret; simpl. split; [|by intros _; split].
    intros (_ & Hne & _). by destruct servers. }
  case_decide as Hname.
  { unfold ret; simpl. split; [|by intros _; split]. by intros (_ & _ & ? & _). }
  destruct (declined _) eqn:Hconfirm.
  { unfold ret; simpl. split; [|by intros _; split]. by intros (_ & _ & _ & ?). }
  split.
  - intros _.
    destruct (DeleteMCPServer_calls (namespaceOr_default (ReadString reader).1)
                (Wizard.TrimSpace (ReadString (ReadString reader).2).1) w1)
      as (rest & Hcalls & Hrest).
    destruct (DeleteMCPServer clientset _ _ w1) as [err w2]. unfold ret; simpl in *.
    split; [done|]. by exists rest.
  - intros Hgo. exfalso. apply Hgo. repeat split; try done.
    intros ->. by apply Hlen.
Qed.

End OtherCommands.

(** ** The menu loop *)

Lemma ReadString_suffix (reader : Reader) : (ReadString reader).2 `suffix_of` reader.
Proof.
  destruct reader as [|line rest].
  - by rewrite ReadString_nil.
  - rewrite ReadString_cons. by apply suffix_cons_r.
Qed.

Lemma argsLoop_suffix (n : nat) :
  ∀ reader args, (length reader ≤ n)%nat →
    (argsLoop reader args).2 `suffix_of` reader.
Proof.
  induction n as [|n IH]; intros reader args Hn.
  - destruct reader; [done|simpl in Hn; lia].
  - destruct reader as [|line reader1]; [done|]. cbn [argsLoop].
    case_decide; simpl; [by apply suffix_cons_r|].
    apply suffix_cons_r, IH. simpl in Hn. lia.
Qed.

Lemma secretMountsLoop_suffix (n : nat) :
  ∀ reader mounts, (length reader ≤ n)%nat →
    (secretMountsLoop reader mounts).2 `suffix_of` reader.
Proof.
  induction n as [|n IH]; intros reader mounts Hn.
  - destruct reader; [done|simpl in Hn; lia].
  - destruct reader as [|line reader1]; [done|]. cbn [secretMountsLoop].
    pose proof (ReadString_length reader1). simpl in Hn.
    case_decide; simpl; [by apply suffix_cons_r|].
    apply suffix_cons_r.
    case_decide; (etrans; [apply IH; lia|apply ReadString_suffix]).
Qed.

Lemma envVarsLoop_suffix (n : nat) :
  ∀ reader envVars, (length reader ≤ n)%nat →
    (envVarsLoop reader envVars).2 `suffix_of` reader.
Proof.
  induction n as [|n IH]; intros reader envVars Hn.
  - destruct reader; [done|simpl in Hn; lia].
  - destruct reader as [|line reader1]; [done|]. cbn [envVarsLoop].
    pose proof (ReadString_length reader1).
    pose proof (ReadString_length (ReadString reader1).2).
    pose proof (ReadString_length (ReadString (ReadString reader1).2).2).
    simpl in Hn.
    case_decide; simpl; [by apply suffix_cons_r|].
    apply suffix_cons_r.
    case_decide.
    + etrans; [apply IH; lia|]. do 2 (etrans; [apply ReadString_suffix|]).
      apply ReadString_suffix.
    + etrans; [apply IH; lia|]. etrans; [apply ReadString_suffix|].
      apply ReadString_suffix.
Qed.

Lemma typedPairs_suffix (n : nat) :
  ∀ reader, (length reader ≤ n)%nat → (typedPairs reader).2 `suffix_of` reader.
Proof.
  induction n as [|n IH]; intros reader Hn.
  - destruct reader; [done|simpl in Hn; lia].
  - destruct reader as [|line reader1]; [done|]. cbn [typedPairs].
    pose proof (ReadString_length reader1). simpl in Hn.
    case_decide; simpl; [by apply suffix_cons_r|].
    apply suffix_cons_r. etrans; [apply IH; lia|apply ReadString_suffix].
Qed.

Lemma promptForArgs_suffix reader : (promptForArgs reader).2 `suffix_of` reader.
Proof.
  unfold promptForArgs. destruct (declined _); simpl; [apply ReadString_suffix|].
  etrans; [by apply (argsLoop_suffix (length (ReadString reader).2))|].
  apply ReadString_suffix.
Qed.

Lemma promptForEnvVars_suffix reader : (promptForEnvVars reader).2 `suffix_of` reader.
Proof.
  unfold promptForEnvVars. destruct (declined _); simpl; [apply ReadString_suffix|].
  etrans; [by apply (envVarsLoop_suffix (length (ReadString reader).2))|].
  apply ReadString_suffix.
Qed.

Lemma promptForSecretMounts_suffix reader :
  (promptForSecretMounts reader).2 `suffix_of` reader.
Proof.
  unfold promptForSecretMounts. destruct (declined _); simpl; [apply ReadString_suffix|].
  etrans; [by apply (secretMountsLoop_suffix (length (ReadString reader).2))|].
  apply ReadString_suffix.
Qed.

Lemma promptForResources_suffix PQ reader :
  (promptForResources PQ reader).2 `suffix_of` reader.
Proof.
  unfold promptForResources. destruct (declined _); simpl; [apply ReadString_suffix|].
  case_bool_decide; simpl;
    repeat (etrans; [apply ReadString_suffix|]); reflexivity.
Qed.

Section MenuResults.
Context {K : Type} (clientset : Clientset K).
Context (ParseQuantity : string → string + error).

Lemma promptForKeyValuePairs_suffix reader (w : World K) :
  (promptForKeyValuePairs reader w).1.2 `suffix_of` reader.
Proof.
  rewrite promptForKeyValuePairs_run. cbn [fst snd].
  destruct (declined _); simpl; [apply ReadString_suffix|].
  etrans; [by apply (typedPairs_suffix (length (ReadString reader).2))|].
  apply ReadString_suffix.
Qed.

Lemma listServers_suffix reader (w : World K) :
  (listServers clientset reader w).1 `suffix_of` reader.
Proof.
  unfold listServers, bind. destruct (ListMCPServers _ _ _). simpl.
  apply ReadString_suffix.
Qed.

Lemma deleteServer_suffix reader (w : World K) :
  (deleteServer clientset reader w).1 `suffix_of` reader.
Proof.
  unfold deleteServer, bind.
  destruct (ListMCPServers _ _ _) as [[servers [e|]] w1]; cbn [fst snd];
    [apply ReadString_suffix|].
  case_bool_decide; [apply ReadString_suffix|].
  case_decide; cbn [ret fst];
    [etrans; [apply ReadString_suffix|]; apply ReadString_suffix|].
  destruct (declined _); [|destruct (DeleteMCPServer _ _ _ _)]; cbn [ret fst];
    repeat (etrans; [apply ReadString_suffix|]); reflexivity.
Qed.

Lemma deployServer_suffix reader (w : World K) :
  (deployServer clientset ParseQuantity reader w).1 `suffix_of` reader.
Proof.
  destruct w as [h k c].
  unfold deployServer, bind, make_map. cbn [fst snd heap kube calls].
  case_decide; [cbn [ret fst]; apply ReadString_suffix|].
  case_decide;
    [cbn [ret fst]; repeat (etrans; [apply ReadString_suffix|]); reflexivity|].
  destruct (Wizard.deployServer_Port _);
    [|cbn [ret fst]; repeat (etrans; [apply ReadString_suffix|]); reflexivity].
  match goal with
  | |- context [promptForEnvVars ?r] =>
      pose proof (promptForEnvVars_suffix r) as Henv;
      destruct (promptForEnvVars r) as [envVars reader1]
  end.
  match goal with
  | |- context [promptForArgs ?r] =>
      pose proof (promptForArgs_suffix r) as Hargs;
      destruct (promptForArgs r) as [args reader2]
  end.
  match goal with
  | |- context [promptForSecretMounts ?r] =>
      pose proof (promptForSecretMounts_suffix r) as Hmounts;
      destruct (promptForSecretMounts r) as [secretMounts reader3]
  end.
  cbn [fst snd] in *.
  match goal with
  | |- context [promptForKeyValuePairs ?r ?w0] =>
      pose proof (promptForKeyValuePairs_suffix r w0) as Hlabels;
      destruct (promptForKeyValuePairs r w0) as [[labels reader4] w1]
  end.
  cbn [fst snd] in *.
  match goal with
  | |- context [promptForKeyValuePairs ?r ?w0] =>
      pose proof (promptForKeyValuePairs_suffix r w0) as Hannotations;
      destruct (promptForKeyValuePairs r w0) as [[annotations reader5] w2]
  end.
  cbn [fst snd] in *.
  match goal with
  | |- context [promptForResources ParseQuantity ?r] =>
      pose proof (promptForResources_suffix ParseQuantity r) as Hresources;
      destruct (promptForResources ParseQuantity r) as [resources reader6]
  end.
  cbn [fst snd] in *.
  assert ((ReadString reader6).2 `suffix_of` reader) as Hend.
  { etrans; [apply ReadString_suffix|]. etrans; [exact Hresources|].
    etrans; [exact Hannotations|]. etrans; [exact Hlabels|].
    etrans; [apply ReadString_suffix|]. etrans; [exact Hmounts|].
    etrans; [exact Hargs|]. etrans; [exact Henv|].
    repeat (etrans; [apply ReadString_suffix|]). reflexivity. }
  destruct (declined _); [|destruct (DeployMCPServer _ _ _)]; cbn [ret fst]; exact Hend.
Qed.

Lemma no_exit_suffix (rest reader : Reader) :
  rest `suffix_of` reader →
  Forall (λ line, Wizard.TrimSpace line ≠ "4") reader →
  Forall (λ line, Wizard.TrimSpace line ≠ "4") rest.
Proof. intros [k ->] Hall. by apply Forall_app in Hall as [_ ?]. Qed.

(** Extra X14.  The menu loop of [main] returns only at choice [4]: on an
    input none of whose lines is [4], it is still running after any number
    of iterations.  At the end of input it runs on without a call to the
    cluster. *)
Theorem menu_exits_only_on_4 (fuel : nat) (reader : Reader) (w : World K) :
  Forall (λ line, Wizard.TrimSpace line ≠ "4") reader →
  (menu clientset ParseQuantity fuel reader w).1 = None ∧
  (reader = [] → menu clientset ParseQuantity fuel reader w = (None, w)).
Proof.
  revert reader w. induction fuel as [|fuel IH]; intros reader w Hall; [done|].
  assert (Wizard.TrimSpace (ReadString reader).1 ≠ "4") as Hchoice.
  { destruct reader as [|line rest]; [by rewrite ReadString_nil|].
    rewrite ReadString_cons. by apply Forall_cons in Hall as [? _]. }
  pose proof (no_exit_suffix _ _ (ReadString_suffix reader) Hall) as Hrest.
  split.
  - cbn [menu]. repeat case_decide; try done; unfold bind.
    + pose proof (listServers_suffix (ReadString reader).2 w) as Hs.
      destruct (listServers _ _ _) as [reader1 w1]. apply IH.
      by apply (no_exit_suffix _ _ Hs).
    + pose proof (deployServer_suffix (ReadString reader).2 w) as Hs.
      destruct (deployServer _ _ _ _) as [reader1 w1]. apply IH.
      by apply (no_exit_suffix _ _ Hs).
    + pose proof (deleteServer_suffix (ReadString reader).2 w) as Hs.
      destruct (deleteServer _ _ _) as [reader1 w1]. apply IH.
      by apply (no_exit_suffix _ _ Hs).
    + by apply IH.
  - intros ->. cbn [menu]. rewrite ReadString_nil. cbn [fst snd].
    change (Wizard.TrimSpace "") with "".
    repeat (rewrite decide_False by done). by apply IH.
Qed.

End MenuResults.

Local Transparent ReadString.

Lemma ports_copied_from_spec_witness :
  int32 (MCPServerSpec.Port Sample.spec) ∧
  (∃ deployment service,
     calls (createDeployment Fake.client Sample.spec Sample.start).2 =
       [DeploymentsCreate "ns1" deployment] ∧
     calls (createService Fake.client Sample.spec Sample.start).2 =
       [ServicesCreate "ns1" service] ∧
     containerPortsOf deployment = [9090] ∧
     servicePortsOf service = [(9090, IntVal 9090)]) ∧
  Wizard.TrimSpace (ReadString (drop 3 Session.deploy)).1 = "" ∧
  let log :=
    calls (deployServer Fake.client Session.parseQuantity Session.deploy
             Sample.start).2 in
  flat_map containerPortsOf (createdDeployments log) = [8080] ∧
  flat_map servicePortsOf (createdServices log) = [(8080, IntVal 8080)] ∧
  ∃ submitted deployment service,
    MCPServerSpec.Port submitted = 8080 ∧
    log = [DeploymentsCreate (MCPServerSpec.Namespace submitted) deployment;
           ServicesCreate (MCPServerSpec.Namespace submitted) service] ∧
    containerPortsOf deployment = [8080] ∧
    servicePortsOf service = [(8080, IntVal 8080)].
Proof.
  assert (int32 (MCPServerSpec.Port Sample.spec)) as Hport
    by (unfold int32; simpl; lia).
  split; [exact Hport|].
  destruct (ports_copied_from_spec Fake.client Sample.spec Sample.start Hport)
    as ((deployment & container & service & Hd & Hs & Hc & Hcp & Hsp) & _ & Hwizard).
  split.
  { exists deployment, service. do 2 (split; [assumption|]).
    unfold containerPortsOf, servicePortsOf. rewrite Hc, Hsp; simpl. rewrite Hcp.
    split; reflexivity. }
  split; [reflexivity|]. cbv zeta.
  split; [vm_compute; reflexivity|]. split; [vm_compute; reflexivity|].
  destruct (Hwizard Session.parseQuantity Session.deploy eq_refl)
    as [Hnone|(submitted & w1 & deployment' & rest & _ & _ & Hsubmitted & Hcalls &
               Hcp' & [[Hrest _]|(service' & Hrest & Hsp')])].
  - vm_compute in Hnone. discriminate Hnone.
  - rewrite Hrest in Hcalls. vm_compute in Hcalls. discriminate Hcalls.
  - exists submitted, deployment', service'. rewrite Hrest in Hcalls.
    split; [exact Hsubmitted|]. split; [exact Hcalls|]. split; assumption.
Defined.

(** ** Runs of the further results *)

Lemma DeployMCPServer_sequencing_witness :
  let w := (DeployMCPServer Fake.client Sample.spec Sample.start).2 in
  let r := DeployMCPServer Fake.client Sample.spec w in
  length (calls w) = 2%nat ∧
  r.1 = Some (Errorf_w "failed to create deployment: "
                (Errorf_w "failed to create deployment: " Fake.alreadyExists)) ∧
  length (calls r.2) = 3%nat ∧
  createdServices (calls r.2) = createdServices (calls w).
Proof.
  cbv zeta.
  destruct (DeployMCPServer_sequencing Fake.client Sample.spec
              (DeployMCPServer Fake.client Sample.spec Sample.start).2)
    as [Hfail _].
  destruct (Hfail Fake.alreadyExists) as (Hr & Hcalls & _);
    [vm_compute; reflexivity|].
  split; [reflexivity|]. split; [exact Hr|].
  rewrite Hcalls. split; [by rewrite length_app|].
  unfold createdServices. by rewrite omap_app, app_nil_r.
Defined.

Lemma mergeLabels_any_order_witness :
  let kvs := reverse (map_to_list (entries (heap Sample.start) (Some 1%positive))) in
  kvs ≡ₚ map_to_list (entries (heap Sample.start) (Some 1%positive)) ∧
  entries
    (heap (bind make_map
             (λ labels,
                bind (for_each kvs (λ kv, map_assign labels kv.1 kv.2))
                  (λ _, bind (map_assign labels MCPServerLabel "true")
                          (λ _, ret (Some labels)))) Sample.start).2)
    (Some 2%positive) =
  {[ "app" := "mcp"; MCPServerLabel := "true" ]}.
Proof.
  cbv zeta.
  assert (reverse (map_to_list (entries (heap Sample.start) (Some 1%positive)))
            ≡ₚ map_to_list (entries (heap Sample.start) (Some 1%positive)))
    as Hp by apply reverse_Permutation.
  split; [exact Hp|].
  rewrite (mergeLabels_any_order (K := Fake.Cluster) (Some 1%positive) _ Sample.start Hp).
  vm_compute. reflexivity.
Defined.

Lemma mergeLabels_idempotent_witness :
  entries (heap Sample.start) None = ∅ ∧
  entries (heap (mergeLabels None Sample.start).2) (mergeLabels None Sample.start).1 =
    {[ MCPServerLabel := "true" ]}.
Proof.
  split; [reflexivity|].
  destruct (mergeLabels_idempotent (K := Fake.Cluster) None Sample.start)
    as (_ & _ & _ & _ & _ & Hnil).
  exact (Hnil eq_refl).
Defined.

Lemma port_prompt_reads_decimal_witness :
  Wizard.TrimSpace " 70000 " = pretty 70000 ∧
  Wizard.deployServer_Port " 70000 " = Some 70000 ∧
  Wizard.deployServer_Port "-1" = Some (-1) ∧
  Wizard.deployServer_Port "2147483648" = None.
Proof.
  split; [reflexivity|].
  split; [exact (port_prompt_reads_decimal " 70000 " 70000 eq_refl)|].
  split; [exact (port_prompt_reads_decimal "-1" (-1) eq_refl)|].
  exact (port_prompt_reads_decimal "2147483648" 2147483648 eq_refl).
Defined.

Lemma promptForArgs_collects_witness :
  let reader := ["Yes"; " --verbose "; "-x"; " "; "next"] in
  declined (ReadString reader).1 = false ∧
  promptForArgs reader = (["--verbose"; "-x"], ["next"]) ∧
  ∃ lines rest,
    (ReadString reader).2 = lines ++ rest ∧
    Wizard.TrimSpace (ReadString rest).1 = "" ∧
    promptForArgs reader = (map Wizard.TrimSpace lines, (ReadString rest).2).
Proof.
  cbv zeta. split; [reflexivity|]. split; [reflexivity|].
  destruct (promptForArgs_collects ["Yes"; " --verbose "; "-x"; " "; "next"])
    as (_ & _ & Hrun).
  destruct (Hrun eq_refl) as (lines & rest & Hsplit & _ & Hend & Heq).
  by exists lines, rest.
Defined.

Lemma promptForSecretMounts_complete_witness :
  let reader := ["yes"; "orphan"; ""; "sec1"; "/a"; ""] in
  let pairs := [("s1", " /a "); ("orphan", " "); ("s2", "/b"); ("late", "")] in
  declined "yes" = false ∧
  Wizard.TrimSpace "orphan" ≠ "" ∧
  Wizard.TrimSpace "" = "" ∧
  promptForSecretMounts reader = promptForSecretMounts ["yes"; "sec1"; "/a"; ""] ∧
  promptForSecretMounts reader =
    ([ {| SecretMount.SecretName := "sec1"; SecretMount.MountPath := "/a" |} ], []) ∧
  Forall (λ p, Wizard.TrimSpace p.1 ≠ "") pairs ∧
  promptForSecretMounts
    ["yes"; "s1"; " /a "; "orphan"; " "; "s2"; "/b"; "late"; ""; ""; "next"] =
    ([ {| SecretMount.SecretName := "s1"; SecretMount.MountPath := "/a" |};
       {| SecretMount.SecretName := "s2"; SecretMount.MountPath := "/b" |} ],
     ["next"]).
Proof.
  cbv zeta.
  assert (Wizard.TrimSpace "orphan" ≠ "") as Hname by discriminate.
  split; [reflexivity|]. split; [exact Hname|]. split; [reflexivity|].
  destruct (promptForSecretMounts_complete
              ["yes"; "orphan"; ""; "sec1"; "/a"; ""]) as (_ & Hskip & _).
  split;
    [exact (Hskip "yes" "orphan" "" ["sec1"; "/a"; ""] eq_refl eq_refl Hname eq_refl)|].
  split; [reflexivity|].
  assert (Forall (λ p : string * string, Wizard.TrimSpace p.1 ≠ "")
            [("s1", " /a "); ("orphan", " "); ("s2", "/b"); ("late", "")])
    as Hnames by (repeat constructor; discriminate).
  split; [exact Hnames|].
  destruct (promptForSecretMounts_complete
              ["yes"; "s1"; " /a "; "orphan"; " "; "s2"; "/b"; "late"; ""; ""; "next"])
    as (_ & _ & Hpairs).
  exact (Hpairs "yes"
           [("s1", " /a "); ("orphan", " "); ("s2", "/b"); ("late", "")]
           [""; "next"] eq_refl eq_refl Hnames eq_refl).
Defined.

Lemma promptForEnvVars_wellFormed_witness :
  let reader := ["y"; "LOG_LEVEL"; "value"; "info";
                 "API_KEY"; "Secret"; "api-credentials"; "key"; ""; "next"] in
  promptForEnvVars reader =
    ([ {| EnvVar.Name := "LOG_LEVEL"; EnvVar.Value := "info";
          EnvVar.ValueFrom := None |};
       {| EnvVar.Name := "API_KEY"; EnvVar.Value := "";
          EnvVar.ValueFrom :=
            Some {| EnvVarSource.SecretKeyRef :=
                      Some {| SecretKeySelector.Name := "api-credentials";
                              SecretKeySelector.Key := "key" |} |} |} ],
     ["next"]) ∧
  Forall (λ e, EnvVar.Name e ≠ "") (promptForEnvVars reader).1 ∧
  promptForEnvVars ["no"; "LOG_LEVEL"] = ([], ["LOG_LEVEL"]).
Proof.
  cbv zeta. split; [reflexivity|]. split.
  - destruct (promptForEnvVars_wellFormed
                ["y"; "LOG_LEVEL"; "value"; "info";
                 "API_KEY"; "Secret"; "api-credentials"; "key"; ""; "next"])
      as [Hall _].
    eapply Forall_impl; [exact Hall|]. by intros e [? _].
  - destruct (promptForEnvVars_wellFormed ["no"; "LOG_LEVEL"]) as [_ Hno].
    exact (Hno eq_refl).
Defined.

Lemma promptForKeyValuePairs_fresh_map_witness :
  let r := promptForKeyValuePairs ["no"; "app"] Sample.start in
  r.1 = (Some 2%positive, ["app"]) ∧
  entries (heap r.2) (Some 2%positive) = ∅ ∧
  heap r.2 !! 1%positive = heap Sample.start !! 1%positive.
Proof.
  cbv zeta.
  destruct (promptForKeyValuePairs_fresh_map (K := Fake.Cluster) ["no"; "app"]
              Sample.start) as (pairs & Hpairs & _ & _ & Hframe & _ & Hno & _).
  destruct (Hno eq_refl) as [Hempty Hrest].
  assert (pairs = 2%positive) as -> by (vm_compute in Hpairs; congruence).
  split; [reflexivity|]. split; [exact Hempty|].
  apply Hframe. vm_compute. reflexivity.
Defined.

Lemma promptForKeyValuePairs_last_value_wins_witness :
  let kvs := [("app", "old"); (" app ", " mcp ")] in
  declined "y" = false ∧
  Forall (λ kv, Wizard.TrimSpace kv.1 ≠ "") kvs ∧
  Wizard.TrimSpace (ReadString [""; "next"]).1 = "" ∧
  let r := promptForKeyValuePairs
             ("y" :: flat_map (λ kv, [kv.1; kv.2]) kvs ++ [""; "next"])
             Sample.start in
  entries (heap r.2) r.1.1 = {[ "app" := "mcp" ]} ∧ r.1.2 = ["next"].
Proof.
  cbv zeta.
  assert (Forall (λ kv : string * string, Wizard.TrimSpace kv.1 ≠ "")
            [("app", "old"); (" app ", " mcp ")]) as Hkeys
    by (repeat constructor; discriminate).
  split; [reflexivity|]. split; [exact Hkeys|]. split; [reflexivity|].
  destruct (promptForKeyValuePairs_last_value_wins (K := Fake.Cluster)
              "y" [("app", "old"); (" app ", " mcp ")] [""; "next"] Sample.start
              eq_refl Hkeys eq_refl) as [Hentries Hrest].
  split; [|exact Hrest]. rewrite Hentries. vm_compute. reflexivity.
Defined.

Lemma promptForResources_slots_witness :
  let reader := ["yes"; "100m"; "lots"; ""; ""; "next"] in
  declined (ReadString (drop 0 reader)).1 = false ∧
  promptForResources Session.parseQuantity reader =
    (Some {| ResourceRequirements.Limits := Some ∅;
             ResourceRequirements.Requests := Some {[ "cpu" := "100m" ]} |},
     ["next"]) ∧
  (promptForResources Session.parseQuantity reader).2 = drop 5 reader ∧
  promptForResources Session.parseQuantity ["yes"; "lots"] = (None, []).
Proof.
  cbv zeta. split; [reflexivity|]. split; [vm_compute; reflexivity|].
  destruct (promptForResources_slots Session.parseQuantity
              ["yes"; "100m"; "lots"; ""; ""; "next"]) as [_ Hyes].
  destruct (Hyes eq_refl) as [Hrest _].
  split; [exact Hrest|]. vm_compute. reflexivity.
Defined.

Lemma deployServer_submits_validated_specs_witness :
  let r := deployServer Fake.client Session.parseQuantity Session.deploy
             Sample.start in
  heap r.2 !! 1%positive = heap Sample.start !! 1%positive ∧
  map (λ d, ObjectMeta.Name (Deployment.ObjectMeta d))
    (createdDeployments (calls r.2)) = ["s1"] ∧
  flat_map containerPortsOf (createdDeployments (calls r.2)) = [8080] ∧
  ∃ spec w1,
    r.2 = (DeployMCPServer Fake.client spec w1).2 ∧
    MCPServerSpec.Name spec = "s1" ∧
    MCPServerSpec.Namespace spec ≠ "" ∧
    int32 (MCPServerSpec.Port spec).
Proof.
  cbv zeta.
  destruct (deployServer_submits_validated_specs Fake.client Session.parseQuantity
              Session.deploy Sample.start) as [Hframe Hrun].
  split; [apply Hframe; vm_compute; reflexivity|].
  split; [vm_compute; reflexivity|]. split; [vm_compute; reflexivity|].
  destruct Hrun as [[Hnone _]|(spec & w1 & Hrun & _ & _ & Hname & _ & Hns & _ & Hport & _)].
  - vm_compute in Hnone. discriminate Hnone.
  - exists spec, w1. split; [exact Hrun|]. split; [exact Hname|].
    split; [exact Hns|exact Hport].
Defined.

Lemma deleteServer_guards_witness :
  let r := deleteServer Fake.client Session.delete Sample.serving in
  let listed := ListMCPServers Fake.client "ns1" Sample.serving in
  listed.1.2 = None ∧ listed.1.1 ≠ [] ∧
  r.2 = (DeleteMCPServer Fake.client "ns1" "svc-a" listed.2).2 ∧
  Fake.deployments (kube r.2) = [] ∧
  (* the same answers in a namespace without servers delete nothing *)
  (deleteServer Fake.client Session.delete Sample.start).2 =
    (ListMCPServers Fake.client "ns1" Sample.start).2.
Proof.
  cbv zeta.
  destruct (deleteServer_guards Fake.client Session.delete Sample.serving)
    as [Hgo _].
  destruct (deleteServer_guards Fake.client Session.delete Sample.start)
    as [_ Hstay].
  assert ((ListMCPServers Fake.client "ns1" Sample.serving).1.1 ≠ []) as Hsome
    by (vm_compute; discriminate).
  split; [reflexivity|]. split; [exact Hsome|].
  split.
  - apply Hgo. split; [reflexivity|]. split; [exact Hsome|].
    split; [discriminate|reflexivity].
  - split; [vm_compute; reflexivity|].
    apply Hstay. intros (_ & Hne & _). apply Hne. vm_compute. reflexivity.
Defined.

Lemma listing_only_reads_witness :
  let r := listServers Fake.client [" "; "next"] Sample.serving in
  Wizard.TrimSpace (ReadString [" "; "next"]).1 = "" ∧
  r.1 = ["next"] ∧
  calls r.2 = [DeploymentsList "default" listOptions].
Proof.
  cbv zeta.
  destruct (listing_only_reads Fake.client [" "; "next"] Sample.serving)
    as (Hrest & Hdefault & items & Hcalls & Hitems).
  split; [reflexivity|]. split; [exact Hrest|].
  rewrite Hcalls. vm_compute in Hitems. subst items. reflexivity.
Defined.

Lemma menu_exits_only_on_4_witness :
  let reader := ["1"; "ns1"; "7"; "3"; "ns1"; "svc-a"; "no"] in
  Forall (λ line, Wizard.TrimSpace line ≠ "4") reader ∧
  (menu Fake.client Session.parseQuantity 100 reader Sample.serving).1 = None ∧
  menu Fake.client Session.parseQuantity 100 [] Sample.serving =
    (None, Sample.serving) ∧
  (menu Fake.client Session.parseQuantity 2 ["1"; "ns1"; " 4 "; "1"]
     Sample.serving).1 = Some ["1"].
Proof.
  cbv zeta.
  assert (Forall (λ line, Wizard.TrimSpace line ≠ "4")
            ["1"; "ns1"; "7"; "3"; "ns1"; "svc-a"; "no"]) as Hall
    by (repeat constructor; discriminate).
  split; [exact Hall|].
  split; [exact (proj1 (menu_exits_only_on_4 Fake.client Session.parseQuantity
                          100 _ Sample.serving Hall))|].
  split; [|vm_compute; reflexivity].
  exact (proj2 (menu_exits_only_on_4 Fake.client Session.parseQuantity 100 []
                  Sample.serving (Forall_nil_2 _)) eq_refl).
Defined.
